(** * ClusterOps: the clustering orchestration of the RelevanceAI client

    A shallow embedding of [relevanceai/operations/cluster/cluster.py]
    (class [ClusterOps]) and the properties of it that the specification
    states.  Python values are embedded as follows:

    - [str] as [string], read as ASCII text;
    - [int] as [Z], [float] as the kernel's binary64 [float];
    - [Optional[T]] as [option T], [None] being [None];
    - a raised exception as the [Raise] case of [result];
    - the instance attributes of [ClusterOps] as the record [ClusterOps],
      threaded through the methods that assign to [self];
    - the calls sent to the remote service as a log of [RemoteCall]s. *)

From Stdlib Require Import ZArith List String Ascii Bool Lia Permutation.
From Stdlib Require Import Decimal DecimalString DecimalZ.
From Stdlib Require Import Floats Uint63.
From stdpp Require Import base option gmap strings.
Import ListNotations.

Local Open Scope string_scope.
Local Open Scope list_scope.

(** ** Python strings *)

Module PyStr.


(** [c.lower()] on one ASCII character. *)
Definition lower_ascii (c : ascii) : ascii :=
  let n := nat_of_ascii c in
  if (65 <=? n)%nat && (n <=? 90)%nat then ascii_of_nat (n + 32) else c.

(** [s.lower()] on ASCII text: the letters [A] to [Z] are the only ASCII
    characters [str.lower] changes.  On text that is not ASCII, where
    [str.lower] also lowers the other cased letters of Unicode, the
    embedding does not follow it; a property whose conclusion is stated
    through the lowercase of an arbitrary string assumes [is_ascii]. *)
Fixpoint lower (s : string) : string :=
  match s with
  | EmptyString => EmptyString
  | String c s' => String (lower_ascii c) (lower s')
  end.

(** [s.replace(c, empty)] for a one-character [c] and the empty string. *)
Fixpoint remove_char (c : ascii) (s : string) : string :=
  match s with
  | EmptyString => EmptyString
  | String c' s' =>
      if Ascii.eqb c c' then remove_char c s' else String c' (remove_char c s')
  end.

(** [sub in s]. *)
Fixpoint contains (sub s : string) : bool :=
  String.prefix sub s ||
  match s with
  | EmptyString => false
  | String _ s' => contains sub s'
  end.

(** [s.split(sep)] for a non-empty [sep]: the first piece and the pieces
    after it; [skip] counts the characters of a separator still to drop. *)
Fixpoint split_aux (sep : string) (skip : nat) (s : string) : string * list string :=
  match s with
  | EmptyString => (EmptyString, [])
  | String c s' =>
      match skip with
      | S k => split_aux sep k s'
      | O =>
          if String.prefix sep s
          then let '(t, ts) := split_aux sep (String.length sep - 1) s' in
               (EmptyString, t :: ts)
          else let '(t, ts) := split_aux sep O s' in
               (String c t, ts)
      end
  end.

Definition split (sep s : string) : list string :=
  let '(t, ts) := split_aux sep O s in t :: ts.

(** [str(n)] for an [int]. *)
Definition str_int (z : Z) : string := NilZero.string_of_int (Z.to_int z).

(** [str(x)] for an [Optional[int]]. *)
Definition str_opt_int (x : option Z) : string :=
  match x with
  | Some z => str_int z
  | None => "None"
  end.

(** [str(x)] for an [Optional[str]]. *)
Definition str_opt_str (x : option string) : string :=
  match x with
  | Some s => s
  | None => "None"
  end.

End PyStr.

(** ** Exceptions and results *)

Inductive error : Type :=
  | ValueError (msg : string)
  | IndexError
  | AttributeError (attr : string)
  | UnboundLocalError (var : string)
  | TypeError
  | ModelError (msg : string)
  | RemoteError (msg : string).

Inductive result (A : Type) : Type :=
  | Ok (a : A)
  | Raise (e : error).

Arguments Ok {A} a.
Arguments Raise {A} e.

Definition rbind {A B} (r : result A) (k : A -> result B) : result B :=
  match r with
  | Ok a => k a
  | Raise e => Raise e
  end.

Notation "'let!' x ':=' r 'in' k" := (rbind r (fun x => k))
  (at level 10, x pattern, r at level 100, k at level 200).

(** ** numpy arrays *)

(** The 2-D array of vectors handed to a model: one row per document. *)
Definition matrix : Type := list (list float).

(** A label array: its shape and its elements in row-major order. *)
Record ndarray : Type := { shape : list nat; data : list Z }.

(** [a.shape[0]]. *)
Definition shape0 (a : ndarray) : result nat :=
  match shape a with
  | n :: _ => Ok n
  | [] => Raise IndexError
  end.

(** [a.flatten().tolist()]. *)
Definition flatten_tolist (a : ndarray) : list Z := data a.

(** [a.reshape(-1, 1)]. *)
Definition reshape_col (a : ndarray) : ndarray :=
  {| shape := [List.length (data a); 1%nat]; data := data a |}.

(** What a model call hands back: an [np.ndarray], or a plain list. *)
Inductive PyVal : Type :=
  | PyArray (a : ndarray)
  | PyList (l : list Z).

(** [isinstance(v, np.ndarray)]. *)
Definition is_ndarray (v : PyVal) : bool :=
  match v with
  | PyArray _ => true
  | PyList _ => false
  end.

(** [np.array(v)]. *)
Definition np_array_val (v : PyVal) : ndarray :=
  match v with
  | PyArray a => a
  | PyList l => {| shape := [List.length l]; data := l |}
  end.

(** ** Models *)

(** A model object as the code sees it, by duck typing: its class, the
    attributes [n_clusters] and [k] when it has them (their value may be
    [None]), and the call shapes it answers to.  A call is a function of the
    vectors; an exception raised inside the model is a [Raise]. *)
Record PyObject : Type := {
  py_class : string;                              (* str(obj.__class__) *)
  py_name : string;                               (* str(obj.__name__), for functions *)
  py_n_clusters : option (option Z);
  py_k : option (option Z);
  py_fit_predict : option (matrix -> result PyVal);   (* obj.fit_predict(vectors) *)
  py_fit_labels : option (matrix -> result ndarray);  (* obj.fit(vectors); obj.labels_ *)
  py_train_assign : option (matrix -> result ndarray);(* obj.train(v); obj.assign(v)[1] *)
  py_call : option (matrix -> result PyVal)           (* obj(vectors) *)
}.

(** The value of [self.model]: [_get_model] leaves a [str] it does not
    recognise in place, so the attribute holds a string or an object. *)
Inductive pymodel : Type :=
  | MStr (s : string)
  | MObj (o : PyObject).

(** The [model] argument of the constructor. *)
Inductive model_arg : Type :=
  | ArgStr (s : string)
  | ArgObj (o : PyObject).

Definition Config : Type := gmap string Z.

(** The third-party classes [_get_model] imports. *)
Inductive lib_class : Type :=
  | AffinityPropagation | AgglomerativeClustering | Birch | DBSCAN | OPTICS
  | KMeans | FeatureAgglomeration | MeanShift | MiniBatchKMeans
  | SpectralClustering | SpectralBiclustering | SpectralCoclustering
  | HDBSCAN | FaissKmeans.

(** The Python environment: the constructors of the imported classes applied
    to [**self.config], sentence-transformers' [community_detection], and
    numpy's conversion of a float64 to float32. *)
Record PyEnv : Type := {
  construct : lib_class -> Config -> result PyObject;
  community_detection : PyObject;
  astype_float32 : float -> float
}.

(** [hasattr(model, "n_clusters")], [hasattr(model, "k")] and the attributes. *)
Definition attr_n_clusters (m : pymodel) : option (option Z) :=
  match m with
  | MStr _ => None
  | MObj o => py_n_clusters o
  end.

Definition attr_k (m : pymodel) : option (option Z) :=
  match m with
  | MStr _ => None
  | MObj o => py_k o
  end.

(** [str(model.__class__)] and [str(model.__name__)]. *)
Definition class_of (m : pymodel) : string :=
  match m with
  | MStr _ => "<class 'str'>"
  | MObj o => py_class o
  end.

Definition name_of (m : pymodel) : result string :=
  match m with
  | MStr _ => Raise (AttributeError "__name__")
  | MObj o => Ok (py_name o)
  end.

(** ** [ClusterOps]: construction *)

(** [ClusterOps._get_package]. *)
Definition _get_package (model : pymodel) : result string :=
  let model_name := class_of model in
  let! model_name := (if PyStr.contains "function" model_name
                      then name_of model else Ok model_name) in
  if PyStr.contains "sklearn" model_name then Ok "sklearn"
  else if PyStr.contains "faiss" model_name then Ok "faiss"
  else if PyStr.contains "hdbscan" model_name then Ok "hdbscan"
  else if PyStr.contains "community_detection" model_name
       then Ok "sentence-transformers"
  else Ok "custom".

(** [ClusterOps._get_model].  The method assigns [self.model_name] and, for
    an object, [self.package]; the embedding returns those assignments next
    to the model: [(model_name, package when assigned, model)].  A string is
    compared with the known names one after the other; when none matches, no
    branch rebinds [model] and the normalised string itself is returned.  The
    final [else: raise ValueError("ModelNotSupported")] belongs to the second
    [isinstance(model, str)] test, which only strings reach: it is the
    [ArgObj] case below that returns first. *)
Definition _get_model (env : PyEnv) (config : Config) (model : model_arg)
  : result (string * option string * pymodel) :=
  match model with
  | ArgObj o =>
      let model_name :=
        List.hd "" (PyStr.split "'>" (List.last (PyStr.split "." (py_class o)) "")) in
      Ok (model_name, Some "custom", MObj o)
  | ArgStr s =>
      let model := PyStr.remove_char "_" (PyStr.remove_char " " (PyStr.lower s)) in
      let model_name := model in
      let lib (c : lib_class) :=
        let! o := construct env c config in Ok (model_name, None, MObj o) in
      if String.eqb model "affinitypropagation" then lib AffinityPropagation
      else if String.eqb model "agglomerativeclustering" then lib AgglomerativeClustering
      else if String.eqb model "birch" then lib Birch
      else if String.eqb model "dbscan" then lib DBSCAN
      else if String.eqb model "optics" then lib OPTICS
      else if String.eqb model "kmeans" then lib KMeans
      else if String.eqb model "featureagglomeration" then lib FeatureAgglomeration
      else if String.eqb model "meanshift" then lib MeanShift
      else if String.eqb model "minibatchkmeans" then lib MiniBatchKMeans
      else if String.eqb model "spectralclustering" then lib SpectralClustering
      else if String.eqb model "spectralbiclustering" then lib SpectralBiclustering
      else if String.eqb model "spectralcoclustering" then lib SpectralCoclustering
      else if String.eqb model "hdbscan" then lib HDBSCAN
      else if String.eqb model "community_detection"
           then Ok (model_name, None, MObj (community_detection env))
      else if PyStr.contains "faiss" model then lib FaissKmeans
      else Ok (model_name, None, MStr model)
  end.

(** [ClusterOps._get_alias], reading [self.model], [self.model_name] and
    [self.n_clusters]. *)
Definition _get_alias (model : pymodel) (model_name : option string)
    (n_clusters : option Z) (alias : option string) : result string :=
  let! alias :=
           match alias with
           | Some a => Ok a
           | None =>
               match attr_n_clusters model, attr_k model with
               | Some model_n_clusters, _ =>
                   let n := match n_clusters with
                            | Some n => Some n
                            | None => model_n_clusters
                            end in
                   Ok (PyStr.str_opt_str model_name +:+ "-" +:+ PyStr.str_opt_int n)
               | None, Some model_k =>
                   let n := match n_clusters with
                            | Some n => Some n
                            | None => model_k
                            end in
                   Ok (PyStr.str_opt_str model_name +:+ "-" +:+ PyStr.str_opt_int n)
               | None, None =>
                   match model_name with
                   | Some a => Ok a
                   | None => Raise (AttributeError "lower")
                   end
               end
           end in
  Ok (PyStr.lower alias).

(** The attributes of a constructed [ClusterOps]. *)
Record ClusterOps : Type := {
  vector_field : option string;
  vector_fields : option (list string);
  config : Config;
  model_name : option string;
  model : pymodel;
  package : string;
  n_clusters : option Z;
  alias : string;
  outlier_value : Z;
  outlier_label : string;
  dataset_id : option string
}.

(** [ClusterOps.__init__], up to the call of the parent's constructor (the
    transport and credentials of [APIClient]). *)
Definition __init__ (env : PyEnv) (model : model_arg)
    (vector_fields : option (list string)) (alias : option string)
    (dataset_id : option string) (n_clusters : option Z)
    (cluster_config : option Config)
    (outlier_value : Z) (outlier_label : string) : result ClusterOps :=
  let! vector_field :=
    match vector_fields with
    | None => Ok None
    | Some [] => Raise IndexError
    | Some (f :: _) => Ok (Some f)
    end in
  let config := match cluster_config with
                | None => ∅
                | Some c => c
                end in
  let config := match n_clusters with
                | Some n => <["n_clusters" := n]> config
                | None => config
                end in
  let! (model_name, package, model) := _get_model env config model in
  let! package :=
    match package with
    | Some p => Ok p
    | None => _get_package model
    end in
  let n_clusters := match attr_n_clusters model with
                    | Some n => n
                    | None => n_clusters
                    end in
  let! alias := _get_alias model (Some model_name) n_clusters alias in
  Ok {| vector_field := vector_field;
        vector_fields := vector_fields;
        config := config;
        model_name := Some model_name;
        model := model;
        package := package;
        n_clusters := n_clusters;
        alias := alias;
        outlier_value := outlier_value;
        outlier_label := outlier_label;
        dataset_id := dataset_id |}.

(** ** Documents *)

(** A field of a document holds a vector or a string. *)
Inductive Value : Type :=
  | VStr (s : string)
  | VVec (v : list float).

(** A document maps field names to values. *)
Abbreviation Document := (gmap string Value).

(** Modelled from the spec: [is_field], a document helper that [ClusterOps]
    inherits and that is not part of the sources read here; a document
    "contains" the field when the field name is one of its keys. *)
Definition is_field (field : string) (doc : Document) : bool :=
  match doc !! field with
  | Some _ => true
  | None => false
  end.

(** Modelled from the spec: [get_field], the inherited helper that reads the
    value stored under a field name. *)
Definition get_field (field : string) (doc : Document) : result Value :=
  match doc !! field with
  | Some v => Ok v
  | None => Raise (ValueError "missing field")
  end.

(** Modelled from the spec: [set_field], the inherited helper that stores a
    value under a field path of one document. *)
Definition set_field (field : string) (doc : Document) (value : Value) : Document :=
  <[field := value]> doc.

(** Modelled from the spec: [set_field_across_documents field values docs],
    the inherited helper that [_fit_predict] calls with two sequences; it
    walks the positions of [docs] and stores [values[i]] in [docs[i]].  It is
    handed no vector field, only the path to write, so it pairs values and
    documents by position; indexing [values] past its end raises
    [IndexError], as a Python list does. *)
Fixpoint set_field_across_documents (field : string) (values : list string)
    (docs : list Document) : result (list Document) :=
  match docs with
  | [] => Ok []
  | d :: docs' =>
      match values with
      | [] => Raise IndexError
      | v :: values' =>
          let! rest := set_field_across_documents field values' docs' in
          Ok (set_field field d (VStr v) :: rest)
      end
  end.

(** A list comprehension whose element expression may raise. *)
Fixpoint map_result {A B} (f : A -> result B) (l : list A) : result (list B) :=
  match l with
  | [] => Ok []
  | x :: l' =>
      let! y := f x in
      let! ys := map_result f l' in
      Ok (y :: ys)
  end.

(** [np.array(values)] for the values of a vector field.  A value that is not
    a vector lies outside the data model (a vector field holds a sequence of
    floats); the embedding stops there with [TypeError]. *)
Definition np_array (values : list Value) : result matrix :=
  map_result (fun v => match v with
                 | VVec x => Ok x
                 | VStr _ => Raise TypeError
                 end) values.

(** ** Label formatting *)

(** [ClusterOps._format_labels]: reads [self.outlier_value] and
    [self.outlier_label], assigns nothing. *)
Definition _format_labels (self : ClusterOps) (labels : ndarray) : list string :=
  let labels := flatten_tolist labels in
  List.map (fun label =>
              if negb (Z.eqb label (outlier_value self))
              then "cluster-" +:+ PyStr.str_int label
              else outlier_label self)
           labels.

(** ** Centroids *)

(** A centroid record, [dict(_id=..., centroid_vector=...)]. *)
Record CentroidDoc (F : Type) : Type := {
  _id : string;
  centroid_vector : list F
}.

Arguments Build_CentroidDoc {F} _ _.
Arguments _id {F} _.
Arguments centroid_vector {F} _.

(** The grouping and the mean are written once for any number type with an
    addition and a division by a count; the program runs them on float64. *)
Section Centroids.

Context {F : Type}.
Variable add : F -> F -> F.
Variable div_count : F -> nat -> F.

(** Element-wise sum of two rows. *)
Fixpoint vadd (a b : list F) : list F :=
  match a, b with
  | x :: a', y :: b' => add x y :: vadd a' b'
  | _, _ => []
  end.

(** numpy's sum of a run of numbers that lie next to each other in memory
    (its pairwise summation), for a run of 8 to 128 numbers: eight partial
    sums take the first eight numbers and then every further block of
    eight; they are added up as [((r0+r1)+(r2+r3))+((r4+r5)+(r6+r7))], and
    the numbers left over, fewer than eight, are added to that one by one. *)
Fixpoint add_blocks (r0 r1 r2 r3 r4 r5 r6 r7 : F) (a : list F) : F :=
  match a with
  | x0 :: x1 :: x2 :: x3 :: x4 :: x5 :: x6 :: x7 :: a' =>
      add_blocks (add r0 x0) (add r1 x1) (add r2 x2) (add r3 x3)
                 (add r4 x4) (add r5 x5) (add r6 x6) (add r7 x7) a'
  | _ =>
      fold_left add a
        (add (add (add r0 r1) (add r2 r3)) (add (add r4 r5) (add r6 r7)))
  end.

Definition block_sum (x : F) (a : list F) : F :=
  match a with
  | x1 :: x2 :: x3 :: x4 :: x5 :: x6 :: x7 :: a' =>
      add_blocks x x1 x2 x3 x4 x5 x6 x7 a'
  | _ => fold_left add a x
  end.

(** The pairwise summation of the run [x :: a], of [n] numbers: fewer than
    eight are added up in order; up to 128 go through [block_sum]; a longer
    run is cut at [n / 2] rounded down to a multiple of eight and the sums of
    the two parts are added.  [depth] bounds the number of cuts; the length
    of the run is more than enough (lemma [pairwise_sum_depth]). *)
Fixpoint pairwise_sum (depth : nat) (x : F) (a : list F) : F :=
  let n := S (List.length a) in
  if (n <? 8)%nat then fold_left add a x
  else if (n <=? 128)%nat then block_sum x a
  else
    match depth with
    | O => block_sum x a
    | S depth' =>
        let n2 := (Nat.div n 2 - Nat.modulo (Nat.div n 2) 8)%nat in
        match firstn n2 (x :: a), skipn n2 (x :: a) with
        | y :: l, z :: l' =>
            add (pairwise_sum depth' y l) (pairwise_sum depth' z l')
        | _, _ => block_sum x a
        end
    end.

(** Whether [np.array(rows)] has a single column: every row has one
    component. *)
Definition one_column (rows : list (list F)) : bool :=
  forallb (fun v => Nat.eqb (List.length v) 1) rows.

(** The sums of [np.array(rows).mean(0)], numpy's reduction by addition
    along the first axis.  The rows of the array lie one after the other in
    memory.  With two components or more, numpy adds row after row, starting
    from the first, so that each column is added up in the order of the
    rows.  With a single component the column itself is one run in memory
    and numpy sums it pairwise.  (numpy starts either sum from the neutral
    element of the addition, which leaves the first number as it is.) *)
Definition sum0 (rows : list (list F)) : list F :=
  match rows with
  | [] => []
  | r :: rest =>
      if one_column rows then
        match concat rows with
        | x :: a => [pairwise_sum (List.length a) x a]
        | [] => []
        end
      else fold_left vadd rest r
  end.

(** [np.array(rows).mean(0).tolist()]: each sum divided by the number of
    rows.  A group is never empty: it receives a vector as soon as it is
    created. *)
Definition mean0 (rows : list (list F)) : list F :=
  List.map (fun s => div_count s (List.length rows)) (sum0 rows).

(** The dict [centroids], in insertion order. *)
Definition groups : Type := list (string * list (list F)).

(** [label in centroids]. *)
Definition dict_contains (label : string) (centroids : groups) : bool :=
  existsb (fun kv => String.eqb label (fst kv)) centroids.

(** [centroids[label] = []] for a label that is not yet a key. *)
Definition dict_new (label : string) (centroids : groups) : groups :=
  centroids ++ [(label, [])].

(** [centroids[label]] as the proofs read it: the empty list when [label] is
    not a key. *)
Fixpoint dict_get (label : string) (centroids : groups) : list (list F) :=
  match centroids with
  | [] => []
  | (k, vs) :: rest => if String.eqb label k then vs else dict_get label rest
  end.

(** [centroids[label].append(vector)]. *)
Fixpoint dict_append (label : string) (vector : list F) (centroids : groups) : groups :=
  match centroids with
  | [] => []
  | (k, vs) :: rest =>
      if String.eqb label k
      then (k, vs ++ [vector]) :: rest
      else (k, vs) :: dict_append label vector rest
  end.

(** The body of the first loop. *)
Definition group_step (centroids : groups) (item : string * list F) : groups :=
  let '(label, vector) := item in
  let centroids :=
    if negb (dict_contains label centroids)
    then dict_new label centroids else centroids in
  dict_append label vector centroids.

(** The first loop, over [zip(labels, vectors.tolist())]. *)
Definition group_by_label (items : list (string * list F)) : groups :=
  fold_left group_step items [].

(** The second loop, over [centroids.items()]. *)
Definition centroid_records (centroids : groups) : list (CentroidDoc F) :=
  List.map (fun kv => {| _id := fst kv; centroid_vector := mean0 (snd kv) |})
           centroids.

(** [_get_centroid_documents] on the zipped input. *)
Definition centroids_of_items (items : list (string * list F)) : list (CentroidDoc F) :=
  centroid_records (group_by_label items).

(** [_get_centroid_documents(vectors, labels)]. *)
Definition centroid_documents_with (vectors : list (list F)) (labels : list string)
  : list (CentroidDoc F) :=
  centroids_of_items (combine labels vectors).

End Centroids.

(** The count of a group as a float64: numpy divides the sums by the
    number of rows, an integer that the division converts to float64. *)
Definition float_of_count (n : nat) : float :=
  PrimFloat.of_uint63 (Uint63.of_Z (Z.of_nat n)).

Definition float_div_count (s : float) (n : nat) : float :=
  PrimFloat.div s (float_of_count n).

(** [ClusterOps._get_centroid_documents]. *)
Definition _get_centroid_documents (vectors : matrix) (labels : list string)
  : list (CentroidDoc float) :=
  centroid_documents_with PrimFloat.add float_div_count vectors labels.

(** ** The remote service *)

(** A call sent to the remote service, with the arguments the code passes. *)
Inductive RemoteCall : Type :=
  | GetAllDocuments (dataset_id : option string) (select_fields : option (list string))
  | UpdateDocuments (dataset_id : option string) (documents : list Document)
  | CentroidsInsert (dataset_id : option string)
      (cluster_centers : list (CentroidDoc float))
      (vector_fields : list string) (alias : string)
  | ListClosestToCenter (dataset_id : option string)
      (vector_fields : list (option string)) (alias : string)
  | ListFurthestFromCenter (dataset_id : option string)
      (vector_fields : list (option string)) (alias : string).

(** The calls that write to the remote store. *)
Definition is_write (c : RemoteCall) : bool :=
  match c with
  | UpdateDocuments _ _ | CentroidsInsert _ _ _ _ => true
  | _ => false
  end.

(** What the remote service answers to a fetch. *)
Record Remote : Type := {
  fetch_documents : option string -> option (list string) -> result (list Document)
}.

(** A method that assigns to [self] or calls the service: it runs on the
    instance and the log of calls so far, and leaves both behind, also when it
    raises. *)
Record State : Type := { self_of : ClusterOps; calls : list RemoteCall }.

Definition M (A : Type) : Type := State -> result A * State.

Definition ret {A} (a : A) : M A := fun st => (Ok a, st).

Definition raise {A} (e : error) : M A := fun st => (Raise e, st).

Definition lift {A} (r : result A) : M A := fun st => (r, st).

Definition mbind {A B} (m : M A) (k : A -> M B) : M B :=
  fun st =>
    match m st with
    | (Ok a, st') => k a st'
    | (Raise e, st') => (Raise e, st')
    end.

Notation "'run!' x ':=' m 'in' k" := (mbind m (fun x => k))
  (at level 10, x pattern, m at level 100, k at level 200).

Definition get_self : M ClusterOps := fun st => (Ok (self_of st), st).

Definition set_self (f : ClusterOps -> ClusterOps) : M unit :=
  fun st => (Ok tt, {| self_of := f (self_of st); calls := calls st |}).

Definition send (c : RemoteCall) : M unit :=
  fun st => (Ok tt, {| self_of := self_of st; calls := calls st ++ [c] |}).

(** [self.dataset_id = v] and [self.vector_field = v]. *)
Definition set_dataset_id (v : option string) (s : ClusterOps) : ClusterOps :=
  {| vector_field := vector_field s; vector_fields := vector_fields s;
     config := config s; model_name := model_name s; model := model s;
     package := package s; n_clusters := n_clusters s; alias := alias s;
     outlier_value := outlier_value s; outlier_label := outlier_label s;
     dataset_id := v |}.

Definition set_vector_field (v : option string) (s : ClusterOps) : ClusterOps :=
  {| vector_field := v; vector_fields := vector_fields s;
     config := config s; model_name := model_name s; model := model s;
     package := package s; n_clusters := n_clusters s; alias := alias s;
     outlier_value := outlier_value s; outlier_label := outlier_label s;
     dataset_id := dataset_id s |}.

(** Modelled from the spec: [_get_all_documents], the inherited fetch of the
    documents of a dataset ([fetch_documents] of the remote-store contract). *)
Definition _get_all_documents (remote : Remote) (dataset_id_ : option string)
    (select_fields : option (list string)) : M (list Document) :=
  run! _ := send (GetAllDocuments dataset_id_ select_fields) in
  lift (fetch_documents remote dataset_id_ select_fields).

(** Modelled from the spec: [_update_documents], the inherited write-back of
    documents ([update_documents] of the remote-store contract), on a service
    that answers the write; [_update_documents_on] below is the method on a
    service whose write may raise. *)
Definition _update_documents (dataset_id_ : option string)
    (documents : list Document) : M unit :=
  send (UpdateDocuments dataset_id_ documents).

(** [ClusterOps._insert_centroids], on a service that answers the insert;
    [_insert_centroids_on] below is the method on a service whose insert may
    raise. *)
Definition _insert_centroids (dataset_id_ : option string) (vector_field_ : string)
    (centroid_documents : list (CentroidDoc float)) : M unit :=
  run! self := get_self in
  send (CentroidsInsert dataset_id_ centroid_documents [vector_field_] (alias self)).

(** ** Fitting and labelling *)

(** A method call on [self.model]; a missing method is an [AttributeError]. *)
Definition call_method {A} (name : string)
    (meth : PyObject -> option (matrix -> result A))
    (m : pymodel) (vectors : matrix) : result A :=
  match m with
  | MStr _ => Raise (AttributeError name)
  | MObj o =>
      match meth o with
      | Some f => f vectors
      | None => Raise (AttributeError name)
      end
  end.

(** [labels.flatten()] needs an array. *)
Definition as_ndarray (v : PyVal) : result ndarray :=
  match v with
  | PyArray a => Ok a
  | PyList _ => Raise (AttributeError "flatten")
  end.

(** The path under which a label is stored, [f"_cluster_.{vector_field}.{self.alias}"]. *)
Definition cluster_field (vector_field_ alias_ : string) : string :=
  "_cluster_." +:+ vector_field_ +:+ "." +:+ alias_.

(** The branch on [self.package] in [_fit_predict]: the vectors as the branch
    leaves them and the labels it binds. *)
Definition predict_labels (env : PyEnv) (self : ClusterOps) (vectors : matrix)
  : result (matrix * ndarray) :=
  if String.eqb (package self) "sklearn" then
    let! labels := call_method "fit_predict" py_fit_predict (model self) vectors in
    let! labels := as_ndarray labels in
    Ok (vectors, labels)
  else if String.eqb (package self) "hdbscan" then
    let! labels_ := call_method "fit" py_fit_labels (model self) vectors in
    Ok (vectors, reshape_col labels_)
  else if String.eqb (package self) "faiss" then
    let vectors := List.map (List.map (astype_float32 env)) vectors in
    let! labels := call_method "train" py_train_assign (model self) vectors in
    Ok (vectors, labels)
  else if String.eqb (package self) "sentencetransformers" then
    let! labels := call_method "__call__" py_call (model self) vectors in
    Ok (vectors, np_array_val labels)
  else if String.eqb (package self) "custom" then
    let! labels := call_method "fit_predict" py_fit_predict (model self) vectors in
    match labels with
    | PyList _ => Raise (ValueError "Custom model must output np.ndarray for labels")
    | PyArray labels =>
        let! n := shape0 labels in
        if negb (Nat.eqb n (List.length vectors))
        then Raise (ValueError "incorrect shape")
        else Ok (vectors, labels)
    end
  else Raise (UnboundLocalError "labels").

(** The first statement of [_fit_predict]: the array of the vectors of the
    documents that contain the field. *)
Definition extract_vectors (vector_field_ : string) (documents : list Document)
  : result matrix :=
  let! values := map_result (get_field vector_field_)
                            (List.filter (is_field vector_field_) documents) in
  np_array values.

(** [ClusterOps._fit_predict]. *)
Definition _fit_predict (env : PyEnv) (self : ClusterOps)
    (documents : list Document) (vector_field_ : string)
  : result (list (CentroidDoc float) * list Document) :=
  let! vectors := extract_vectors vector_field_ documents in
  let! (vectors, labels) := predict_labels env self vectors in
  let labels := _format_labels self labels in
  let cluster_field_ := cluster_field vector_field_ (alias self) in
  let! documents := set_field_across_documents cluster_field_ labels documents in
  let centroid_documents := _get_centroid_documents vectors labels in
  Ok (centroid_documents, documents).

(** ** Running a clustering *)

(** The [dataset_id] argument of [operate]: a string, or a dataset object
    carrying its id. *)
Inductive dataset_ref : Type :=
  | DsStr (s : string)
  | DsDataset (id : string).

(** The first statement of [operate]: a dataset object is replaced by its id. *)
Definition dataset_id_of (dataset_id_ : option dataset_ref) : option string :=
  match dataset_id_ with
  | Some (DsStr s) => Some s
  | Some (DsDataset id) => Some id
  | None => None
  end.

(** [if vector_fields is None: vector_fields = self.vector_fields]. *)
Definition vector_fields_or_default (self : ClusterOps)
    (vector_fields_ : option (list string)) : option (list string) :=
  match vector_fields_ with
  | None => vector_fields self
  | Some _ => vector_fields_
  end.

(** [ClusterOps.operate].  [vector_field] is a local that is bound only when
    there are vector fields; it is read when [_fit_predict] is called.  The
    printing of the dashboard link at the end is left out.  The two writes
    are taken as answered; [operate_on] below is the method on a service
    whose writes may raise. *)
Definition operate (env : PyEnv) (remote : Remote)
    (dataset_id_ : option dataset_ref) (vector_fields_ : option (list string))
  : M unit :=
  let dataset_id_ := dataset_id_of dataset_id_ in
  run! self := get_self in
  let vector_fields_ := vector_fields_or_default self vector_fields_ in
  run! _ := set_self (set_dataset_id dataset_id_) in
  run! vector_field_ :=
    match vector_fields_ with
    | None => ret None
    | Some [] => raise IndexError
    | Some (f :: _) =>
        run! _ := set_self (set_vector_field (Some f)) in ret (Some f)
    end in
  run! documents := _get_all_documents remote dataset_id_ vector_fields_ in
  run! vector_field_ :=
    match vector_field_ with
    | Some f => ret f
    | None => raise (UnboundLocalError "vector_field")
    end in
  run! self := get_self in
  run! (centroid_documents, labelled_documents) :=
    lift (_fit_predict env self documents vector_field_) in
  run! _ := _update_documents dataset_id_ labelled_documents in
  run! _ := _insert_centroids dataset_id_ vector_field_ centroid_documents in
  ret tt.

(** ** Writes that may raise *)

(** [_update_documents], [_insert_centroids] and [operate] above take the
    two writes as answered.  A write is a request like the fetch and may
    raise (the service refuses it, the connection is lost): [Writes] is what
    the service does on each write, and the definitions below are the same
    methods against such a service.  A call that raises has been made and is
    in the log.  [operate] discards what a write returns, so that only
    whether it raises is kept. *)
Record Writes : Type := {
  update_documents : option string -> list Document -> result unit;
  centroids_insert : option string -> list (CentroidDoc float) -> list string
                     -> string -> result unit
}.

(** A service that answers every write. *)
Definition acknowledged : Writes :=
  {| update_documents := fun _ _ => Ok tt;
     centroids_insert := fun _ _ _ _ => Ok tt |}.

(** Modelled from the spec: [_update_documents], the inherited write-back of
    documents, against a service whose writes may raise. *)
Definition _update_documents_on (writes : Writes) (dataset_id_ : option string)
    (documents : list Document) : M unit :=
  run! _ := send (UpdateDocuments dataset_id_ documents) in
  lift (update_documents writes dataset_id_ documents).

(** [ClusterOps._insert_centroids], against a service whose writes may raise. *)
Definition _insert_centroids_on (writes : Writes) (dataset_id_ : option string)
    (vector_field_ : string) (centroid_documents : list (CentroidDoc float))
  : M unit :=
  run! self := get_self in
  run! _ := send (CentroidsInsert dataset_id_ centroid_documents [vector_field_]
                                  (alias self)) in
  lift (centroids_insert writes dataset_id_ centroid_documents [vector_field_]
                         (alias self)).

(** [ClusterOps.operate], against a service whose writes may raise. *)
Definition operate_on (env : PyEnv) (remote : Remote) (writes : Writes)
    (dataset_id_ : option dataset_ref) (vector_fields_ : option (list string))
  : M unit :=
  let dataset_id_ := dataset_id_of dataset_id_ in
  run! self := get_self in
  let vector_fields_ := vector_fields_or_default self vector_fields_ in
  run! _ := set_self (set_dataset_id dataset_id_) in
  run! vector_field_ :=
    match vector_fields_ with
    | None => ret None
    | Some [] => raise IndexError
    | Some (f :: _) =>
        run! _ := set_self (set_vector_field (Some f)) in ret (Some f)
    end in
  run! documents := _get_all_documents remote dataset_id_ vector_fields_ in
  run! vector_field_ :=
    match vector_field_ with
    | Some f => ret f
    | None => raise (UnboundLocalError "vector_field")
    end in
  run! self := get_self in
  run! (centroid_documents, labelled_documents) :=
    lift (_fit_predict env self documents vector_field_) in
  run! _ := _update_documents_on writes dataset_id_ labelled_documents in
  run! _ := _insert_centroids_on writes dataset_id_ vector_field_ centroid_documents in
  ret tt.

(** [ClusterOps.closest]. *)
Definition closest (dataset_id_ vector_field_ alias_ : option string) : M unit :=
  run! self := get_self in
  let dataset_id_ := match dataset_id_ with
                     | None => dataset_id self
                     | Some _ => dataset_id_
                     end in
  let vector_field_ := match vector_field_ with
                       | None => vector_field self
                       | Some _ => vector_field_
                       end in
  let alias_ := match alias_ with
                | None => alias self
                | Some a => a
                end in
  send (ListClosestToCenter dataset_id_ [vector_field_] alias_).

(** [ClusterOps.furthest]. *)
Definition furthest (dataset_id_ vector_field_ alias_ : option string) : M unit :=
  run! self := get_self in
  let dataset_id_ := match dataset_id_ with
                     | None => dataset_id self
                     | Some _ => dataset_id_
                     end in
  let vector_field_ := match vector_field_ with
                       | None => vector_field self
                       | Some _ => vector_field_
                       end in
  let alias_ := match alias_ with
                | None => alias self
                | Some a => a
                end in
  send (ListFurthestFromCenter dataset_id_ [vector_field_] alias_).

(** ** [ClusterOps]: calling, and aggregating *)

(** [ClusterOps.__call__]. *)
Definition __call__ (env : PyEnv) (remote : Remote)
    (dataset_id_ : string) (vector_fields_ : list string) : M unit :=
  operate env remote (Some (DsStr dataset_id_)) (Some vector_fields_).

(** [ClusterOps._retrieve_dataset_id]: the id, and the lines it prints.
    [hasattr(self, "dataset_id")] holds on every constructed instance, since
    [__init__] assigns the attribute; [str(None)] is ["None"]. *)
Definition _retrieve_dataset_id (self : ClusterOps) (dataset : option dataset_ref)
  : string * list string :=
  match dataset with
  | Some (DsDataset id) => (id, [])
  | Some (DsStr s) => (s, [])
  | None =>
      let stored := PyStr.str_opt_str (dataset_id self) in
      (stored, ["No dataset supplied - using last stored one '" +:+ stored +:+ "'."])
  end.

(** The keyword arguments [aggregate] passes to the aggregation endpoint; an
    item of a list is kept as its text. *)
Record AggregateRequest : Type := {
  agg_dataset_id : string;
  agg_vector_fields : option (list string);
  agg_groupby : list string;
  agg_metrics : list string;
  agg_sort : list string;
  agg_filters : list string;
  agg_alias : string;
  agg_page_size : Z;
  agg_page : Z;
  agg_asc : bool;
  agg_flatten : bool
}.

(** [x if x is not None else []]. *)
Definition or_empty (l : option (list string)) : list string :=
  match l with
  | Some x => x
  | None => []
  end.

(** [ClusterOps.aggregate]: the request sent and the lines printed on the
    way (the analytics decorator around it is left out). *)
Definition aggregate (self : ClusterOps) (vector_fields_ : option (list string))
    (metrics sort groupby filters : option (list string))
    (page_size page : Z) (asc flatten : bool) (dataset : option dataset_ref)
  : AggregateRequest * list string :=
  let metrics := or_empty metrics in
  let sort := or_empty sort in
  let groupby := or_empty groupby in
  let filters := or_empty filters in
  let '(dataset_id_, printed) := _retrieve_dataset_id self dataset in
  ({| agg_dataset_id := dataset_id_;
      agg_vector_fields := match vector_fields_ with
                           | None | Some [] => vector_fields self
                           | Some _ => vector_fields_
                           end;
      agg_groupby := groupby;
      agg_metrics := metrics;
      agg_sort := sort;
      agg_filters := filters;
      agg_alias := alias self;
      agg_page_size := page_size;
      agg_page := page;
      agg_asc := asc;
      agg_flatten := flatten |}, printed).

(** ** [OperationManager.clean] *)

Module Manager.

(** One element of the comprehension: the items of [after_doc] whose key is
    new, or is ["_id"]. *)
Definition clean_doc {V : Type} (before_doc after_doc : gmap string V) : gmap string V :=
  filter (fun kv : string * V => kv.1 ∉ dom before_doc \/ kv.1 = "_id") after_doc.

(** [OperationManager.clean], over [zip(before_docs, after_docs)]. *)
Fixpoint clean {V : Type} (before_docs after_docs : list (gmap string V))
  : list (gmap string V) :=
  match before_docs, after_docs with
  | before_doc :: before_docs', after_doc :: after_docs' =>
      clean_doc before_doc after_doc :: clean before_docs' after_docs'
  | _, _ => []
  end.

End Manager.

(** ** [Transport.make_http_request] *)

Module Transport.

(** The attributes the method reads. *)
Record Transport : Type := {
  project : string;
  api_key : string;
  base_url : string;
  number_of_retries : Z;
  seconds_between_retries : Z
}.

(** [Transport.auth_header], the value of its single key ["Authorization"]. *)
Definition auth_header (self : Transport) : string :=
  project self +:+ ":" +:+ api_key self.

(** A response: its status code, its body decoded as JSON ([None] when
    [response.json()] raises [JSONDecodeError]), and whether its body is
    valid UTF-8, that is whether [response.content.decode()] returns. *)
Record Response : Type := {
  status_code : Z;
  json_body : option string;
  content_decodes : bool
}.

(** What a call of [requests.post] or [requests.get] does.  The module
    imports no [ConnectionError], so that the [except ConnectionError] of
    the method names Python's builtin class: [RaisesConnectionError] is a
    raised builtin [ConnectionError] (or a subclass of it, as
    [ConnectionResetError]).  The error requests raises when it cannot
    connect, [requests.exceptions.ConnectionError], is not a subclass of the
    builtin one: it is a [RaisesOther], like any other exception. *)
Inductive Outcome : Type :=
  | Responds (r : Response)
  | RaisesConnectionError
  | RaisesOther (exc : string).

(** What the method hands back or raises. *)
Inductive HttpResult : Type :=
  | ReturnsJson (body : string)
  | ReturnsResponse (r : Response)
  | ReturnsNone
  | RaisesValueError (msg : string)
  | Propagates (exc : string).

(** What the method does to the world, in order: a call of [requests.post]
    or [requests.get], answered or not, and a sleep (printing is left out). *)
Inductive Event : Type :=
  | Sent (method url authorization : string)
  | Slept (seconds : Z).

(** The loop [for i in range(...)], from iteration [i] with [left]
    iterations to go; [network i] is what the request of iteration [i] does.
    On a status other than 200 the method prints
    [response.content.decode()] before it goes round again: a body that is
    not valid UTF-8 raises [UnicodeDecodeError] there, which no [except]
    clause of the method catches. *)
Fixpoint attempts (self : Transport) (network : nat -> Outcome)
    (endpoint method output_format : string) (i left : nat)
  : HttpResult * list Event :=
  match left with
  | O => (ReturnsNone, [])
  | S left' =>
      if String.eqb method "POST" || String.eqb method "GET" then
        let sent := Sent method (base_url self +:+ endpoint) (auth_header self) in
        let retry (events : list Event) :=
          let '(r, later) :=
            attempts self network endpoint method output_format (S i) left' in
          (r, events ++ later) in
        match network i with
        | RaisesConnectionError =>
            retry [sent; Slept (seconds_between_retries self)]
        | RaisesOther exc => (Propagates exc, [sent])
        | Responds response =>
            if Z.eqb (status_code response) 200 then
              if String.eqb output_format "json" then
                match json_body response with
                | Some body => (ReturnsJson body, [sent])
                | None => retry [sent]
                end
              else (ReturnsResponse response, [sent])
            else if content_decodes response then retry [sent]
            else (Propagates "UnicodeDecodeError", [sent])
        end
      else
        (RaisesValueError
           ("You require a GET or a POST method, not " +:+ method +:+ "."), [])
  end.

(** [Transport.make_http_request]. *)
Definition make_http_request (self : Transport) (network : nat -> Outcome)
    (endpoint method output_format : string) : HttpResult * list Event :=
  attempts self network endpoint method output_format O
           (Z.to_nat (number_of_retries self)).

(** The requests among the events. *)
Definition requests (events : list Event) : list Event :=
  List.filter (fun e => match e with Sent _ _ _ => true | Slept _ => false end) events.


End Transport.

(** ** [ExtractNER] *)

Module NER.

(** [s.replace(old, new)] for a non-empty [old]: occurrences are replaced
    from left to right; [skip] counts the characters of a match still to
    drop. *)
Fixpoint replace_aux (old new : string) (skip : nat) (s : string) : string :=
  match s with
  | EmptyString => EmptyString
  | String c s' =>
      match skip with
      | S k => replace_aux old new k s'
      | O =>
          if String.prefix old s
          then new +:+ replace_aux old new (String.length old - 1) s'
          else String c (replace_aux old new O s')
      end
  end.

Definition replace (old new s : string) : string := replace_aux old new O s.

(** An item of the classifier's output, with the two keys the code reads. *)
Record Entity : Type := { entity : string; word : string }.

(** An item of the result, [{"word": ..., "type": ...}]. *)
Record Found : Type := { found_word : string; found_type : string }.

(** The locals of the loop of [extract_ner]; [word] is unbound at first. *)
Record Locals : Type := {
  cur_word : option string;
  is_recorded : bool;
  new_entities : list Found
}.

(** Reading the local [word]. *)
Definition read_word (st : Locals) : result string :=
  match cur_word st with
  | Some w => Ok w
  | None => Raise (UnboundLocalError "word")
  end.

(** The body of the loop of [extract_ner]. *)
Definition step (st : Locals) (e : Entity) : result Locals :=
  if String.prefix "B-" (entity e) then
    if is_recorded st then
      Ok {| cur_word := Some (word e); is_recorded := false;
            new_entities := new_entities st |}
    else
      let! w := read_word st in
      Ok {| cur_word := cur_word st; is_recorded := false;
            new_entities :=
              new_entities st
              ++ [{| found_word := w; found_type := replace "I-" "" (entity e) |}] |}
  else if String.prefix "I-" (entity e) then
    let! w := read_word st in
    let w := if PyStr.contains "##" (word e)
             then w +:+ replace "##" "" (word e)
             else w +:+ (" " +:+ word e) in
    Ok {| cur_word := Some w; is_recorded := true;
          new_entities :=
            new_entities st
            ++ [{| found_word := w; found_type := replace "I-" "" (entity e) |}] |}
  else Ok st.

Fixpoint run_loop (st : Locals) (entities : list Entity) : result Locals :=
  match entities with
  | [] => Ok st
  | e :: rest =>
      let! st' := step st e in
      run_loop st' rest
  end.

(** What a field of a document holds: a text, or the list that this
    operation stores, of one-key dicts [{text_field: s}]. *)
Inductive NerValue : Type :=
  | Text (s : string)
  | Chunks (l : list (string * Found)).

Abbreviation NerDocument := (gmap string NerValue).

(** The attributes of an [ExtractNER] the methods read; the classifier is
    the pipeline, a function of the value it is given. *)
Record ExtractNER : Type := {
  fields : list string;
  output_fields : list string;
  classifier : NerValue -> list Entity
}.

(** [ExtractNER.extract_ner]. *)
Definition extract_ner (self : ExtractNER) (text : NerValue) : result (list Found) :=
  let! st := run_loop {| cur_word := None; is_recorded := true; new_entities := [] |}
                      (classifier self text) in
  Ok (new_entities st).

(** [[{text_field: s} for s in split_text if s.strip() != ""]]: each [s] is
    a dict, which has no [strip]; the first element raises. *)
Definition split_text_value (text_field : string) (split_text : list Found)
  : result (list (string * Found)) :=
  match split_text with
  | [] => Ok []
  | _ :: _ => Raise (AttributeError "strip")
  end.

(** The inherited [get_field] and [set_field], on a document keyed by field
    name. *)
Definition get_field (field : string) (document : NerDocument) : result NerValue :=
  match document !! field with
  | Some v => Ok v
  | None => Raise (ValueError "missing field")
  end.

Definition set_field (field : string) (document : NerDocument) (value : NerValue)
  : NerDocument :=
  <[field := value]> document.

(** The loop of [extract_ner_from_document] from position [i] of
    [enumerate(self.fields)]: the outcome, and the document as the loop leaves
    it (it is updated in place). *)
Fixpoint fields_loop (self : ExtractNER) (i : nat) (todo : list string)
    (document : NerDocument) : result unit * NerDocument :=
  match todo with
  | [] => (Ok tt, document)
  | text_field :: rest =>
      match (let! text := get_field text_field document in
             let! split_text := extract_ner self text in
             let! value := split_text_value text_field split_text in
             match nth_error (output_fields self) i with
             | Some out => Ok (out, value)
             | None => Raise IndexError
             end) with
      | Ok (out, value) =>
          fields_loop self (S i) rest (set_field out document (Chunks value))
      | Raise e => (Raise e, document)
      end
  end.

(** [ExtractNER.extract_ner_from_document]. *)
Definition extract_ner_from_document (self : ExtractNER) (document : NerDocument)
  : result unit * NerDocument :=
  fields_loop self O (fields self) document.

(** [ExtractNER.transform]: the outcome and the documents as they are left. *)
Fixpoint transform (self : ExtractNER) (documents : list NerDocument)
  : result unit * list NerDocument :=
  match documents with
  | [] => (Ok tt, [])
  | document :: rest =>
      match extract_ner_from_document self document with
      | (Ok _, document') =>
          let '(r, rest') := transform self rest in (r, document' :: rest')
      | (Raise e, document') => (Raise e, document' :: rest)
      end
  end.

End NER.

(** ** [setup.get_version] *)

Module Setup.

(** The double quote, as a one-character string. *)
Definition dquote : string := String (ascii_of_nat 34) EmptyString.

Inductive Outcome : Type :=
  | Version (v : string)
  | RaisesIndexError
  | RaisesRuntimeError.

(** [get_version], on the lines of the file ([read(rel_path).splitlines()]). *)
Fixpoint get_version (lines : list string) : Outcome :=
  match lines with
  | [] => RaisesRuntimeError
  | line :: rest =>
      if String.prefix "__version__" line then
        let delim := if PyStr.contains dquote line then dquote else "'" in
        match nth_error (PyStr.split delim line) 1 with
        | Some v => Version v
        | None => RaisesIndexError
        end
      else get_version rest
  end.

End Setup.

(** ** Notions used to state the properties *)

(** An entity of the classifier tagged neither [B-] nor [I-]. *)
Definition untagged (e : NER.Entity) : bool :=
  negb (String.prefix "B-" (NER.entity e)) && negb (String.prefix "I-" (NER.entity e)).

(** The vectors that carry [label], in input order. *)
Definition members {F : Type} (label : string) (items : list (string * list F))
  : list (list F) :=
  List.map snd (List.filter (fun kv => String.eqb (fst kv) label) items).

(** [s] is a sum of the numbers of a non-empty list: the value of adding
    them all up, each once, in some order and some grouping.  A float64
    addition rounds, so that a list may have several sums. *)
Inductive sum_of {F : Type} (add : F -> F -> F) : list F -> F -> Prop :=
  | sum_one (x : F) : sum_of add [x] x
  | sum_two (l l1 l2 : list F) (a b : F) :
      Permutation l (l1 ++ l2) -> sum_of add l1 a -> sum_of add l2 b ->
      sum_of add l (add a b).

(** The [j]-th components of the rows. *)
Definition column (j : nat) (rows : matrix) : list float :=
  List.map (fun r => nth j r 0%float) rows.

(** A number of members as a float64. *)
Definition members_count (rows : matrix) : float :=
  PrimFloat.of_uint63 (Uint63.of_Z (Z.of_nat (List.length rows))).

(** The element-wise arithmetic mean in the specification's words, on
    float64: [mean] has [d] components, and its [j]-th component is a sum of
    the [j]-th components of the member vectors divided by the number of
    members. *)
Definition is_elementwise_mean (d : nat) (rows : matrix) (mean : list float) : Prop :=
  List.length mean = d
  /\ forall j, (j < d)%nat ->
       exists s, sum_of PrimFloat.add (column j rows) s
                 /\ nth j mean 0%float = PrimFloat.div s (members_count rows).

(** The element-wise mean whose sums are taken in the order of the member
    vectors. *)
Definition column_mean (rows : matrix) (j : nat) : float :=
  let col := column j rows in
  PrimFloat.div (fold_left PrimFloat.add (List.tl col) (List.hd 0%float col))
                (members_count rows).

Definition elementwise_mean (d : nat) (rows : matrix) : list float :=
  List.map (column_mean rows) (seq 0 d).

(** The number of distinct elements of a sequence. *)
Definition distinct_strings (l : list string) : nat :=
  List.length (nodup string_dec l).

Definition distinct_codes (l : list Z) : nat :=
  List.length (nodup Z.eq_dec l).

(** The error the code raises when a custom model's label array and the
    vectors differ in their first dimension; the specification calls it
    [ShapeMismatchError]. *)
Definition ShapeMismatchError : error := ValueError "incorrect shape".

(** A custom model object: an instance of a user class with a [fit_predict]
    method and nothing else the code looks for. *)
Definition custom_model (fit_predict : matrix -> result PyVal) : PyObject :=
  {| py_class := "<class '__main__.MyModel'>";
     py_name := "";
     py_n_clusters := None;
     py_k := None;
     py_fit_predict := Some fit_predict;
     py_fit_labels := None;
     py_train_assign := None;
     py_call := None |}.

(** An environment in which none of the third-party packages is installed. *)
Definition bare_env : PyEnv :=
  {| construct := fun _ _ => Raise (ModelError "ImportError");
     community_detection := custom_model (fun _ => Raise (ModelError "ImportError"));
     astype_float32 := fun x => x |}.


(** A remote service whose every dataset holds the given documents. *)
Definition remote_with (documents : list Document) : Remote :=
  {| fetch_documents := fun _ _ => Ok documents |}.

(** Two stored documents with the vector field ["v"], and one without it. *)
Definition doc_a : Document :=
  <["_id" := VStr "a"]> (<["v" := VVec [0; 0]%float]> ∅).

Definition doc_b : Document :=
  <["_id" := VStr "b"]> (<["v" := VVec [2; 2]%float]> ∅).

Definition doc_no_vector : Document :=
  <["_id" := VStr "c"]> ∅.

(** A custom model that puts every vector in cluster 0. *)
Definition one_cluster_model : PyObject :=
  custom_model (fun vectors =>
                  Ok (PyArray {| shape := [List.length vectors];
                                 data := List.map (fun _ => 0%Z) vectors |})).

(** A custom model that always answers with a single label. *)
Definition one_label_model : PyObject :=
  custom_model (fun _ => Ok (PyArray {| shape := [1%nat]; data := [0%Z] |})).

(** A custom model that refuses an empty input, as scikit-learn's do. *)
Definition strict_model : PyObject :=
  custom_model (fun vectors =>
                  match vectors with
                  | [] => Raise (ModelError "Found array with 0 sample(s)")
                  | _ => Ok (PyArray {| shape := [List.length vectors];
                                        data := List.map (fun _ => 0%Z) vectors |})
                  end).

(** A one-dimensional label array. *)
Definition labels_1d (l : list Z) : ndarray :=
  {| shape := [List.length l]; data := l |}.

(** The instance [ClusterOps(model=m, vector_fields=["v"], outlier_value=ov,
    outlier_label=ol)] for the custom model [m] that puts every vector in
    cluster 0. *)
Definition instance_with_outliers (ov : Z) (ol : string) : ClusterOps :=
  {| vector_field := Some "v";
     vector_fields := Some ["v"];
     config := ∅;
     model_name := Some "MyModel";
     model := MObj one_cluster_model;
     package := "custom";
     n_clusters := None;
     alias := "mymodel";
     outlier_value := ov;
     outlier_label := ol;
     dataset_id := None |}.




(** * Properties *)

(** ** Python strings *)

Example lower_ex : PyStr.lower "K Means_2" = "k means_2".
Proof. reflexivity. Qed.

Example split_ex :
  PyStr.split "." "<class 'sklearn.cluster._kmeans.MiniBatchKMeans'>"
  = ["<class 'sklearn"; "cluster"; "_kmeans"; "MiniBatchKMeans'>"].
Proof. reflexivity. Qed.

Example split_ex2 : PyStr.split "'>" "MiniBatchKMeans'>" = ["MiniBatchKMeans"; ""].
Proof. reflexivity. Qed.

Example str_int_ex :
  List.map PyStr.str_int [0; 7; 12; -1; -305]%Z = ["0"; "7"; "12"; "-1"; "-305"].
Proof. reflexivity. Qed.



(** [str] of an integer reads back as that integer. *)
Lemma str_int_parse (z : Z) :
  option_map Z.of_int (NilZero.int_of_string (PyStr.str_int z)) = Some z.
Proof.
  unfold PyStr.str_int.
  rewrite NilZero.isi.
  - simpl. now rewrite DecimalZ.of_to.
  - destruct z; simpl; try discriminate.
    intros [= H]. now apply DecimalPos.Unsigned.to_uint_nonnil in H.
  - destruct z; simpl; try discriminate.
    intros [= H]. now apply DecimalPos.Unsigned.to_uint_nonnil in H.
Qed.

Lemma str_int_inj (a b : Z) : PyStr.str_int a = PyStr.str_int b -> a = b.
Proof.
  intros H.
  pose proof (str_int_parse a) as Ha.
  pose proof (str_int_parse b) as Hb.
  rewrite H in Ha. congruence.
Qed.

Lemma append_inj_l (p a b : string) : p +:+ a = p +:+ b -> a = b.
Proof.
  induction p as [|c p IH]; simpl; intros H; [exact H|].
  injection H as H. now apply IH.
Qed.

(** ** Model construction *)

(** A string argument never reaches [ValueError("ModelNotSupported")]: when
    [_get_model] raises on a string, a library constructor raised. *)
Lemma _get_model_str_raises env config s e :
  _get_model env config (ArgStr s) = Raise e ->
  exists c, construct env c config = Raise e.
Proof.
  unfold _get_model.
  repeat match goal with
         | |- context [if ?b then _ else _] => destruct b
         end;
    try discriminate;
    match goal with
    | |- context [construct env ?c config] =>
        destruct (construct env c config) eqn:E; simpl; intros [=]; subst;
        exists c; exact E
    end.
Qed.

(** C1.  The unknown model name ["not-a-real-model"] does not make
    construction fail: [_get_model] returns the normalised string itself as
    the model, and [__init__] goes on to build an instance whose model is that
    string and whose package is ["custom"].  For no string at all does
    [_get_model] raise an error of its own: it returns, or a library
    constructor raised. *)
Theorem get_model_unknown_name_is_returned :
  forall env config,
    _get_model env config (ArgStr "not-a-real-model")
    = Ok ("not-a-real-model", None, MStr "not-a-real-model")
    /\ (forall s,
          match _get_model env config (ArgStr s) with
          | Ok _ => True
          | Raise e => exists c, construct env c config = Raise e
          end)
    /\ forall vf rest alias_ ds n cc ov ol,
      exists self,
        __init__ env (ArgStr "not-a-real-model") (Some (vf :: rest))
                 alias_ ds n cc ov ol = Ok self
        /\ model self = MStr "not-a-real-model"
        /\ package self = "custom".
Proof.
  intros env config. split; [reflexivity|]. split.
  { intros s. destruct (_get_model env config (ArgStr s)) as [r|e] eqn:E;
      [exact I|]. now apply (_get_model_str_raises env config s). }
  intros vf rest alias_ ds n cc ov ol.
  unfold __init__. cbn [rbind].
  change (_get_model env _ (ArgStr "not-a-real-model"))
    with (@Ok (string * option string * pymodel)
              ("not-a-real-model", None, MStr "not-a-real-model")).
  cbn [rbind].
  change (_get_package (MStr "not-a-real-model")) with (@Ok string "custom").
  cbn [rbind attr_n_clusters].
  destruct alias_ as [a|]; cbn; eexists; repeat split; reflexivity.
Qed.

(** ** Label formatting *)

(** The canonical label of one raw code. *)
Lemma _format_labels_map (self : ClusterOps) (labels : ndarray) :
  _format_labels self labels
  = List.map (fun c => if negb (Z.eqb c (outlier_value self))
                       then "cluster-" +:+ PyStr.str_int c
                       else outlier_label self)
             (flatten_tolist labels).
Proof. reflexivity. Qed.

(** The instance used in the examples is the one the constructor builds. *)
Example instance_with_outliers_init (ov : Z) (ol : string) :
  __init__ bare_env (ArgObj one_cluster_model) (Some ["v"]) None None None None ov ol
  = Ok (instance_with_outliers ov ol).
Proof. reflexivity. Qed.

(** C6.  Label formatting returns one canonical label per element of the
    label array, whatever its shape, for every sentinel value and outlier
    label of the instance: at each position the sentinel becomes the outlier
    label and any other code [c], negative ones included, becomes
    ["cluster-"] followed by the decimal numeral of [c], which reads back as
    [c].  The result depends on the instance through its two outlier settings
    alone.  With the default settings the codes [[0,0,1,-1,-1]] give
    [["cluster-0","cluster-0","cluster-1","outlier","outlier"]]; with the
    sentinel [7] and the label ["noise"] the 2x2 array [[[7,0],[-1,12]]] gives
    [["noise","cluster-0","cluster--1","cluster-12"]]. *)
Theorem format_labels_canonical :
  forall (self : ClusterOps) (labels : ndarray),
    List.length (_format_labels self labels) = List.length (data labels)
    /\ (forall i c,
          nth_error (data labels) i = Some c ->
          (c = outlier_value self ->
           nth_error (_format_labels self labels) i = Some (outlier_label self))
          /\ (c <> outlier_value self ->
              nth_error (_format_labels self labels) i
              = Some ("cluster-" +:+ PyStr.str_int c)))
    /\ (forall c : Z,
          option_map Z.of_int (NilZero.int_of_string (PyStr.str_int c)) = Some c)
    /\ (forall self' : ClusterOps,
          outlier_value self' = outlier_value self ->
          outlier_label self' = outlier_label self ->
          _format_labels self' labels = _format_labels self labels)
    /\ _format_labels (instance_with_outliers (-1) "outlier")
                      {| shape := [5%nat]; data := [0; 0; 1; -1; -1]%Z |}
       = ["cluster-0"; "cluster-0"; "cluster-1"; "outlier"; "outlier"]
    /\ _format_labels (instance_with_outliers 7 "noise")
                      {| shape := [2%nat; 2%nat]; data := [7; 0; -1; 12]%Z |}
       = ["noise"; "cluster-0"; "cluster--1"; "cluster-12"].
Proof.
  intros self labels. rewrite _format_labels_map.
  change (flatten_tolist labels) with (data labels).
  split; [apply List.length_map|].
  split; [|split; [apply str_int_parse|split; [|split; reflexivity]]].
  - intros i c Hi. rewrite nth_error_map, Hi. simpl.
    split; intros Hc.
    + subst c. now rewrite Z.eqb_refl.
    + apply Z.eqb_neq in Hc. now rewrite Hc.
  - intros self' Hv Hl. rewrite _format_labels_map.
    change (flatten_tolist labels) with (data labels).
    now rewrite Hv, Hl.
Qed.

(** C6 on an instance built by the constructor with the sentinel [-9] and
    the outlier label ["none"], and a column array as hdbscan's branch
    builds it. *)
Lemma format_labels_canonical_example :
  exists self,
    __init__ bare_env (ArgObj one_cluster_model) (Some ["v"]) None None None None
             (-9)%Z "none" = Ok self
    /\ let labels := reshape_col (labels_1d [3; -9; -1]%Z) in
       List.length (_format_labels self labels) = 3%nat
       /\ nth_error (_format_labels self labels) 0 = Some "cluster-3"
       /\ nth_error (_format_labels self labels) 1 = Some "none"
       /\ nth_error (_format_labels self labels) 2 = Some "cluster--1".
Proof.
  eexists. split; [reflexivity|]. cbv zeta.
  match goal with
  | |- context [_format_labels ?s ?l] =>
      destruct (format_labels_canonical s l) as (Hlen & Hnth & _)
  end.
  split; [exact Hlen|].
  split; [exact (proj2 (Hnth 0%nat 3%Z eq_refl) ltac:(discriminate))|].
  split; [exact (proj1 (Hnth 1%nat (-9)%Z eq_refl) eq_refl)|].
  exact (proj2 (Hnth 2%nat (-1)%Z eq_refl) ltac:(discriminate)).
Defined.

(** Mapping a function that is injective on the elements of a list keeps the
    number of distinct elements. *)
Lemma nodup_map_inj_length {A B : Type}
    (decA : forall x y : A, {x = y} + {x <> y})
    (decB : forall x y : B, {x = y} + {x <> y})
    (f : A -> B) (l : list A) :
  (forall x y, In x l -> In y l -> f x = f y -> x = y) ->
  List.length (nodup decB (List.map f l)) = List.length (nodup decA l).
Proof.
  induction l as [|a l IH]; intros Hinj; [reflexivity|].
  assert (IH' : List.length (nodup decB (List.map f l)) = List.length (nodup decA l)).
  { apply IH. intros x y Hx Hy. apply Hinj; now right. }
  simpl.
  destruct (in_dec decB (f a) (List.map f l)) as [Hin|Hnin];
    destruct (in_dec decA a l) as [Hin'|Hnin']; simpl; try lia.
  - exfalso. apply in_map_iff in Hin as (x & Hfx & Hx).
    assert (x = a) by (apply Hinj; [now right | now left | exact Hfx]).
    subst x. contradiction.
  - exfalso. apply Hnin. now apply in_map.
Qed.

(** C9, as amended.  When the outlier label is not itself the canonical
    label of a non-sentinel code of the input, the number of distinct
    canonical labels equals the number of distinct input codes. *)
Theorem format_labels_distinct_count :
  forall (self : ClusterOps) (labels : ndarray),
    (forall c, In c (flatten_tolist labels) -> c <> outlier_value self ->
               outlier_label self <> "cluster-" +:+ PyStr.str_int c) ->
    distinct_strings (_format_labels self labels)
    = distinct_codes (flatten_tolist labels).
Proof.
  intros self labels Hfree.
  rewrite _format_labels_map. unfold distinct_strings, distinct_codes.
  apply nodup_map_inj_length.
  intros x y Hx Hy.
  destruct (Z.eqb_spec x (outlier_value self)) as [Ex|Ex];
    destruct (Z.eqb_spec y (outlier_value self)) as [Ey|Ey]; simpl; intros H.
  - congruence.
  - exfalso. now apply (Hfree y Hy Ey).
  - exfalso. now apply (Hfree x Hx Ex).
  - apply str_int_inj. now apply (append_inj_l "cluster-").
Qed.

(** With the default sentinel [-1] and outlier label ["outlier"], the codes
    [[0,0,1,-1,-1]] format as the specification says, and three distinct codes
    give three distinct labels. *)
Lemma format_labels_distinct_count_default :
  exists self,
    __init__ bare_env (ArgObj (custom_model (fun _ => Ok (PyList []))))
             (Some ["v"]) None None None None (-1)%Z "outlier" = Ok self
    /\ _format_labels self (labels_1d [0; 0; 1; -1; -1]%Z)
       = ["cluster-0"; "cluster-0"; "cluster-1"; "outlier"; "outlier"]
    /\ distinct_strings (_format_labels self (labels_1d [0; 0; 1; -1; -1]%Z))
       = distinct_codes (flatten_tolist (labels_1d [0; 0; 1; -1; -1]%Z)).
Proof.
  eexists. split; [reflexivity|]. split; [reflexivity|].
  apply format_labels_distinct_count.
  intros c _ _. discriminate.
Defined.

(** C9, as stated, fails for an outlier label that collides with a cluster
    label: with the outlier label ["cluster-0"], the two codes [[0,-1]] format
    to the single label ["cluster-0"]. *)
Lemma format_labels_distinct_count_collision :
  exists self,
    __init__ bare_env (ArgObj (custom_model (fun _ => Ok (PyList []))))
             (Some ["v"]) None None None None (-1)%Z "cluster-0" = Ok self
    /\ _format_labels self (labels_1d [0; -1]%Z) = ["cluster-0"; "cluster-0"]
    /\ distinct_strings (_format_labels self (labels_1d [0; -1]%Z))
       <> distinct_codes (flatten_tolist (labels_1d [0; -1]%Z)).
Proof.
  eexists. split; [reflexivity|]. split; [reflexivity|].
  vm_compute. discriminate.
Qed.

(** ** Grouping by label *)

Section GroupFacts.

Context {F : Type}.

Abbreviation dict := (list (string * list (list F))).

Lemma dict_contains_In (k : string) (d : dict) :
  dict_contains k d = true <-> In k (List.map fst d).
Proof.
  unfold dict_contains. rewrite existsb_exists. split.
  - intros ([k' vs] & Hin & Heq). apply String.eqb_eq in Heq. simpl in Heq. subst k'.
    apply in_map_iff. now exists (k, vs).
  - intros Hin. apply in_map_iff in Hin as ([k' vs] & Hk & Hin). simpl in Hk. subst k'.
    exists (k, vs). split; [exact Hin|]. apply String.eqb_refl.
Qed.

Lemma keys_dict_append (k : string) (v : list F) (d : dict) :
  List.map fst (dict_append k v d) = List.map fst d.
Proof.
  induction d as [|[k' vs] d IH]; simpl; [reflexivity|].
  destruct (String.eqb k k'); simpl; [reflexivity|]. now rewrite IH.
Qed.

Lemma keys_group_step (d : dict) (k : string) (v : list F) :
  List.map fst (group_step d (k, v))
  = if dict_contains k d then List.map fst d else List.map fst d ++ [k].
Proof.
  unfold group_step. rewrite keys_dict_append.
  destruct (dict_contains k d); simpl; [reflexivity|].
  unfold dict_new. now rewrite List.map_app.
Qed.

Lemma dict_get_append (k k' : string) (v : list F) (d : dict) :
  In k (List.map fst d) ->
  dict_get k' (dict_append k v d)
  = if String.eqb k k' then dict_get k' d ++ [v] else dict_get k' d.
Proof.
  induction d as [|[k0 vs] d IH]; simpl; [intros []|].
  intros Hin.
  destruct (String.eqb_spec k k0) as [->|Hk0].
  - simpl. destruct (String.eqb_spec k' k0) as [->|Hne].
    + now rewrite String.eqb_refl.
    + destruct (String.eqb_spec k0 k'); [congruence|reflexivity].
  - simpl. destruct Hin as [Heq|Hin]; [congruence|].
    destruct (String.eqb_spec k' k0) as [->|Hne].
    + destruct (String.eqb_spec k k0); [congruence|reflexivity].
    + now apply IH.
Qed.

Lemma dict_get_new (k k' : string) (d : dict) :
  ~ In k (List.map fst d) ->
  dict_get k' (dict_new k d) = dict_get k' d.
Proof.
  unfold dict_new.
  induction d as [|[k0 vs] d IH]; simpl; intros Hnin.
  - now destruct (String.eqb k' k).
  - destruct (String.eqb k' k0); [reflexivity|]. apply IH. tauto.
Qed.

Lemma dict_get_group_step (d : dict) (k k' : string) (v : list F) :
  dict_get k' (group_step d (k, v))
  = if String.eqb k k' then dict_get k' d ++ [v] else dict_get k' d.
Proof.
  unfold group_step.
  destruct (dict_contains k d) eqn:E; simpl.
  - apply dict_get_append. now apply dict_contains_In.
  - assert (Hnin : ~ In k (List.map fst d)).
    { intros H. apply dict_contains_In in H. congruence. }
    rewrite dict_get_append.
    + now rewrite dict_get_new.
    + unfold dict_new. rewrite List.map_app. apply in_or_app. right. now left.
Qed.

Lemma members_cons (l : string) (k : string) (v : list F) (items : list (string * list F)) :
  members l ((k, v) :: items)
  = if String.eqb k l then v :: members l items else members l items.
Proof.
  unfold members. simpl. now destruct (String.eqb k l).
Qed.

(** The loop invariant of the grouping, from any dict with distinct keys. *)
Lemma fold_group_step (items : list (string * list F)) :
  forall acc : dict,
    List.NoDup (List.map fst acc) ->
    let r := fold_left group_step items acc in
    List.NoDup (List.map fst r)
    /\ (forall k, In k (List.map fst r)
                  <-> In k (List.map fst acc) \/ In k (List.map fst items))
    /\ (forall k, dict_get k r = dict_get k acc ++ members k items).
Proof.
  induction items as [|[k v] items IH]; intros acc Hnd; simpl.
  - split; [exact Hnd|]. split.
    + intros k'. tauto.
    + intros k'. unfold members. simpl. now rewrite List.app_nil_r.
  - assert (Hnd' : List.NoDup (List.map fst (group_step acc (k, v)))).
    { rewrite keys_group_step. destruct (dict_contains k acc) eqn:E; [exact Hnd|].
      apply List.NoDup_app.
      - exact Hnd.
      - constructor; [intros []|constructor].
      - intros x Hx [Hk|[]]. subst x.
        apply dict_contains_In in Hx. congruence. }
    destruct (IH _ Hnd') as (H1 & H2 & H3).
    split; [exact H1|]. split.
    + intros k'. rewrite H2, keys_group_step.
      destruct (dict_contains k acc) eqn:E.
      * apply dict_contains_In in E. split; [tauto|].
        intros [H|[H|H]]; [tauto|subst k'; tauto|tauto].
      * rewrite in_app_iff. simpl. tauto.
    + intros k'. rewrite H3, dict_get_group_step, members_cons.
      destruct (String.eqb k k'); [|reflexivity].
      now rewrite <- List.app_assoc.
Qed.

Lemma dict_get_In (k : string) (vs : list (list F)) (d : dict) :
  List.NoDup (List.map fst d) -> In (k, vs) d -> dict_get k d = vs.
Proof.
  induction d as [|[k0 vs0] d IH]; simpl; [intros _ []|].
  intros Hnd [Heq|Hin].
  - injection Heq as -> ->. now rewrite String.eqb_refl.
  - inversion Hnd as [|? ? Hnotin Hnd']; subst.
    destruct (String.eqb_spec k k0) as [->|Hne]; [|now apply IH].
    exfalso. apply Hnotin. apply in_map_iff. now exists (k0, vs).
Qed.

Lemma In_dict_get (k : string) (d : dict) :
  In k (List.map fst d) -> In (k, dict_get k d) d.
Proof.
  induction d as [|[k0 vs0] d IH]; simpl; [intros []|].
  intros [Heq|Hin].
  - subst k0. rewrite String.eqb_refl. now left.
  - destruct (String.eqb_spec k k0) as [->|Hne]; [now left|].
    right. now apply IH.
Qed.

(** The groups after the first loop: one per label, holding the label's
    vectors in input order. *)
Lemma group_by_label_spec (items : list (string * list F)) :
  List.NoDup (List.map fst (group_by_label items))
  /\ (forall k, In k (List.map fst (group_by_label items)) <-> In k (List.map fst items))
  /\ (forall k vs, In (k, vs) (group_by_label items)
                   <-> In k (List.map fst items) /\ vs = members k items).
Proof.
  destruct (fold_group_step items [] (List.NoDup_nil _)) as (H1 & H2 & H3).
  fold (group_by_label items) in H1, H2, H3.
  split; [exact H1|].
  assert (H2' : forall k, In k (List.map fst (group_by_label items))
                          <-> In k (List.map fst items)).
  { intros k. rewrite H2. simpl. tauto. }
  split; [exact H2'|].
  intros k vs. split.
  - intros Hin. split.
    + apply H2'. apply in_map_iff. now exists (k, vs).
    + rewrite <- (dict_get_In k vs _ H1 Hin). now rewrite H3.
  - intros [Hk ->]. apply H2' in Hk.
    apply In_dict_get in Hk. now rewrite H3 in Hk.
Qed.

Lemma members_nonempty (k : string) (items : list (string * list F)) :
  In k (List.map fst items) -> members k items <> [].
Proof.
  induction items as [|[k0 v] items IH]; simpl; [intros []|].
  rewrite members_cons. intros [Heq|Hin].
  - subst k0. now rewrite String.eqb_refl.
  - destruct (String.eqb k0 k); [discriminate|now apply IH].
Qed.

Variable add : F -> F -> F.
Variable div_count : F -> nat -> F.

Lemma ids_centroid_records (d : dict) :
  List.map _id (centroid_records add div_count d) = List.map fst d.
Proof.
  unfold centroid_records. rewrite List.map_map. reflexivity.
Qed.

(** The records of [_get_centroid_documents]: their labels are the distinct
    labels of the input, and a record is in the output exactly when it pairs
    a label of the input with the mean of that label's vectors. *)
Lemma centroids_of_items_spec (items : list (string * list F)) :
  List.NoDup (List.map _id (centroids_of_items add div_count items))
  /\ (forall k, In k (List.map _id (centroids_of_items add div_count items))
                <-> In k (List.map fst items))
  /\ (forall c, In c (centroids_of_items add div_count items)
                <-> In (_id c) (List.map fst items)
                    /\ centroid_vector c = mean0 add div_count (members (_id c) items)).
Proof.
  destruct (group_by_label_spec items) as (H1 & H2 & H3).
  unfold centroids_of_items. rewrite ids_centroid_records.
  split; [exact H1|]. split; [exact H2|].
  intros c. unfold centroid_records. rewrite in_map_iff. split.
  - intros ([k vs] & <- & Hin). simpl. apply H3 in Hin as [Hk ->]. now split.
  - intros [Hk Hv]. exists (_id c, members (_id c) items). split.
    + destruct c as [i cv]. simpl in *. now rewrite Hv.
    + apply H3. now split.
Qed.

End GroupFacts.

(** ** The mean of a group *)

Section MeanFacts.

Context {F : Type}.
Variable add : F -> F -> F.
Variable div_count : F -> nat -> F.

Lemma length_vadd (d : nat) (a b : list F) :
  List.length a = d -> List.length b = d -> List.length (vadd add a b) = d.
Proof.
  revert a b. induction d as [|d IH]; intros [|x a] [|y b]; simpl; try discriminate.
  - reflexivity.
  - intros [= Ha] [= Hb]. f_equal. now apply IH.
Qed.

Lemma nth_vadd (zero : F) (d j : nat) (a b : list F) :
  List.length a = d -> List.length b = d -> (j < d)%nat ->
  nth j (vadd add a b) zero = add (nth j a zero) (nth j b zero).
Proof.
  revert j a b. induction d as [|d IH]; intros j [|x a] [|y b]; simpl; try discriminate.
  - intros _ _ H. lia.
  - intros [= Ha] [= Hb] Hj. destruct j as [|j]; [reflexivity|].
    apply IH; [exact Ha | exact Hb | lia].
Qed.

Lemma length_fold_vadd (d : nat) (rest : list (list F)) :
  forall r,
    List.length r = d -> Forall (fun v => List.length v = d) rest ->
    List.length (fold_left (vadd add) rest r) = d.
Proof.
  induction rest as [|v rest IH]; intros r Hr Hrest; simpl; [exact Hr|].
  inversion Hrest as [|? ? Hv Hrest']; subst.
  apply IH; [|exact Hrest']. now apply length_vadd.
Qed.

(** Adding rows up and reading a component is adding that component up. *)
Lemma nth_fold_vadd (zero : F) (d j : nat) (rest : list (list F)) :
  forall r,
    List.length r = d -> Forall (fun v => List.length v = d) rest -> (j < d)%nat ->
    nth j (fold_left (vadd add) rest r) zero
    = fold_left add (List.map (fun v => nth j v zero) rest) (nth j r zero).
Proof.
  induction rest as [|v rest IH]; intros r Hr Hrest Hj; simpl; [reflexivity|].
  inversion Hrest as [|? ? Hv Hrest']; subst.
  rewrite IH; [|now apply length_vadd|exact Hrest'|exact Hj].
  now rewrite (nth_vadd zero (List.length r) j r v).
Qed.

(** *** Sums *)

Lemma sum_of_perm (l l' : list F) (s : F) :
  sum_of add l s -> Permutation l l' -> sum_of add l' s.
Proof.
  intros [x|l0 l1 l2 a b HP Ha Hb] HP'.
  - apply Permutation_length_1_inv in HP'. subst l'. constructor.
  - apply (sum_two add l' l1 l2); [|exact Ha|exact Hb].
    now transitivity l0; [symmetry|].
Qed.

Lemma sum_of_app (l1 l2 : list F) (a b : F) :
  sum_of add l1 a -> sum_of add l2 b -> sum_of add (l1 ++ l2) (add a b).
Proof. intros Ha Hb. now apply (sum_two add _ l1 l2). Qed.

Lemma sum_of_nonempty (l : list F) (s : F) : sum_of add l s -> l <> [].
Proof.
  induction 1 as [x|l l1 l2 a b HP _ IH1 _ _]; [discriminate|].
  intros ->. apply Permutation_nil in HP.
  destruct l1; [now apply IH1|discriminate].
Qed.

Lemma sum_of_fold_left (l' : list F) :
  forall l s, sum_of add l s -> sum_of add (l ++ l') (fold_left add l' s).
Proof.
  induction l' as [|y l' IH]; intros l s Hs; simpl.
  - now rewrite List.app_nil_r.
  - replace (l ++ y :: l') with ((l ++ [y]) ++ l')
      by (now rewrite <- List.app_assoc).
    apply IH. apply sum_of_app; [exact Hs|constructor].
Qed.

(** Adding the numbers up in order gives a sum of them. *)
Lemma sum_of_sequential (x : F) (l : list F) :
  sum_of add (x :: l) (fold_left add l x).
Proof. apply (sum_of_fold_left l [x] x). constructor. Qed.

Lemma sum_of_add_blocks (n : nat) :
  forall a, (List.length a <= n)%nat ->
  forall r0 r1 r2 r3 r4 r5 r6 r7 l0 l1 l2 l3 l4 l5 l6 l7,
    sum_of add l0 r0 -> sum_of add l1 r1 -> sum_of add l2 r2 -> sum_of add l3 r3 ->
    sum_of add l4 r4 -> sum_of add l5 r5 -> sum_of add l6 r6 -> sum_of add l7 r7 ->
    sum_of add ((((l0 ++ l1) ++ (l2 ++ l3)) ++ ((l4 ++ l5) ++ (l6 ++ l7))) ++ a)
           (add_blocks add r0 r1 r2 r3 r4 r5 r6 r7 a).
Proof.
  induction n as [|n IH]; intros a Hn r0 r1 r2 r3 r4 r5 r6 r7 l0 l1 l2 l3 l4 l5 l6 l7
                                 H0 H1 H2 H3 H4 H5 H6 H7.
  - destruct a; [|simpl in Hn; lia]. simpl.
    rewrite List.app_nil_r. repeat apply sum_of_app; assumption.
  - assert (Htree : sum_of add (((l0 ++ l1) ++ (l2 ++ l3)) ++ ((l4 ++ l5) ++ (l6 ++ l7)))
                      (add (add (add r0 r1) (add r2 r3)) (add (add r4 r5) (add r6 r7)))).
    { repeat apply sum_of_app; assumption. }
    destruct a as [|x0 [|x1 [|x2 [|x3 [|x4 [|x5 [|x6 [|x7 a']]]]]]]];
      try (apply sum_of_fold_left; exact Htree).
    cbn [add_blocks].
    eapply sum_of_perm.
    + apply (IH a'); [simpl in Hn; lia|..].
      * apply (sum_of_app l0 [x0]); [exact H0|constructor].
      * apply (sum_of_app l1 [x1]); [exact H1|constructor].
      * apply (sum_of_app l2 [x2]); [exact H2|constructor].
      * apply (sum_of_app l3 [x3]); [exact H3|constructor].
      * apply (sum_of_app l4 [x4]); [exact H4|constructor].
      * apply (sum_of_app l5 [x5]); [exact H5|constructor].
      * apply (sum_of_app l6 [x6]); [exact H6|constructor].
      * apply (sum_of_app l7 [x7]); [exact H7|constructor].
    + solve_Permutation.
Qed.

Lemma sum_of_block_sum (x : F) (a : list F) :
  sum_of add (x :: a) (block_sum add x a).
Proof.
  unfold block_sum.
  destruct a as [|x1 [|x2 [|x3 [|x4 [|x5 [|x6 [|x7 a']]]]]]];
    try apply sum_of_sequential.
  apply (sum_of_add_blocks (List.length a') a' (le_n _)
           x x1 x2 x3 x4 x5 x6 x7 [x] [x1] [x2] [x3] [x4] [x5] [x6] [x7]);
    constructor.
Qed.

(** The pairwise summation of a run gives a sum of its numbers. *)
Lemma sum_of_pairwise_sum (depth : nat) :
  forall x a, sum_of add (x :: a) (pairwise_sum add depth x a).
Proof.
  induction depth as [|depth IH]; intros x a; cbn [pairwise_sum]; cbv zeta;
    destruct (S (List.length a) <? 8)%nat; try apply sum_of_sequential;
    destruct (S (List.length a) <=? 128)%nat; try apply sum_of_block_sum.
  match goal with
  | |- context [firstn ?n (x :: a)] =>
      pose proof (firstn_skipn n (x :: a)) as E;
      destruct (firstn n (x :: a)) as [|y l]; [apply sum_of_block_sum|];
      destruct (skipn n (x :: a)) as [|z l']; [apply sum_of_block_sum|]
  end.
  rewrite <- E. apply sum_of_app; apply IH.
Qed.

(** The depth handed to [pairwise_sum] is never used up: any two depths of
    at least the length of the run give the same sum. *)
Lemma pairwise_sum_depth (d1 : nat) :
  forall d2 x a,
    (List.length a <= d1)%nat -> (List.length a <= d2)%nat ->
    pairwise_sum add d1 x a = pairwise_sum add d2 x a.
Proof.
  induction d1 as [|d1 IH]; intros d2 x a H1 H2.
  - destruct a; [|simpl in H1; lia]. destruct d2; reflexivity.
  - destruct d2 as [|d2].
    + destruct a; [|simpl in H2; lia]. reflexivity.
    + cbn [pairwise_sum]; cbv zeta.
      destruct (S (List.length a) <? 8)%nat; [reflexivity|].
      destruct (Nat.leb_spec (S (List.length a)) 128) as [|Hbig]; [reflexivity|].
      match goal with
      | |- context [firstn ?n (x :: a)] =>
          pose proof (length_firstn n (x :: a)) as E1;
          pose proof (length_skipn n (x :: a)) as E2;
          assert (Hn : (0 < n < S (List.length a))%nat);
          [|destruct (firstn n (x :: a)) as [|y l]; [reflexivity|];
            destruct (skipn n (x :: a)) as [|z l']; [reflexivity|]]
      end.
      { pose proof (Nat.div_mod_eq (S (List.length a)) 2).
        pose proof (Nat.mod_upper_bound (S (List.length a)) 2).
        pose proof (Nat.mod_upper_bound (S (List.length a) / 2) 8).
        lia. }
      cbn [List.length] in E1, E2.
      f_equal; apply IH; lia.
Qed.

(** A run of fewer than eight numbers is added up in order. *)
Lemma pairwise_sum_short (depth : nat) (x : F) (a : list F) :
  (S (List.length a) < 8)%nat -> pairwise_sum add depth x a = fold_left add a x.
Proof.
  intros H. apply Nat.ltb_lt in H.
  destruct depth; cbn [pairwise_sum]; cbv zeta; now rewrite H.
Qed.

(** *** The sums of the rows *)

(** An array with a column of [d] components, [d] other than one. *)
Lemma one_column_false (d : nat) (r : list F) (rest : list (list F)) :
  List.length r = d -> d <> 1%nat -> one_column (r :: rest) = false.
Proof.
  intros Hr Hd. unfold one_column. cbn [forallb].
  apply Nat.eqb_neq in Hd. now rewrite Hr, Hd.
Qed.

Lemma one_column_true (rows : list (list F)) :
  Forall (fun v => List.length v = 1%nat) rows -> one_column rows = true.
Proof.
  intros H. unfold one_column. apply forallb_forall.
  rewrite List.Forall_forall in H. intros v Hv. now rewrite (H v Hv).
Qed.

Lemma one_column_Forall (rows : list (list F)) :
  one_column rows = true -> Forall (fun v => List.length v = 1%nat) rows.
Proof.
  unfold one_column. rewrite forallb_forall, List.Forall_forall.
  intros H v Hv. now apply Nat.eqb_eq, H.
Qed.

(** In an array with a single column the rows laid end to end are the
    column. *)
Lemma concat_one_column (zero : F) (rows : list (list F)) :
  Forall (fun v => List.length v = 1%nat) rows ->
  concat rows = List.map (fun v => nth 0 v zero) rows.
Proof.
  induction 1 as [|v rows Hv _ IH]; simpl; [reflexivity|].
  destruct v as [|x [|y v]]; try discriminate. simpl. now rewrite IH.
Qed.

Lemma fold_vadd_one_column (rest : list (list F)) :
  Forall (fun v => List.length v = 1%nat) rest ->
  forall x, fold_left (vadd add) rest [x] = [fold_left add (concat rest) x].
Proof.
  induction 1 as [|v rest Hv _ IH]; intros x; simpl; [reflexivity|].
  destruct v as [|y [|z v]]; try discriminate. simpl. apply IH.
Qed.

(** With a component count other than one, or fewer than eight rows, the
    rows are added up in order. *)
Lemma sum0_in_order (d : nat) (r : list F) (rest : list (list F)) :
  Forall (fun v => List.length v = d) (r :: rest) ->
  (d <> 1 \/ List.length (r :: rest) < 8)%nat ->
  sum0 add (r :: rest) = fold_left (vadd add) rest r.
Proof.
  intros Hrows Hcase. inversion Hrows as [|? ? Hr Hrest]; subst.
  unfold sum0.
  destruct (one_column (r :: rest)) eqn:E; [|reflexivity].
  apply one_column_Forall in E.
  destruct Hcase as [Hd|Hn].
  { inversion E as [|? ? Hr1 _]. congruence. }
  inversion E as [|? ? Hr1 Hrest1]; subst.
  destruct r as [|x [|y r]]; try discriminate.
  cbn [concat app].
  rewrite pairwise_sum_short.
  - now rewrite fold_vadd_one_column.
  - rewrite (concat_one_column x rest Hrest1), List.length_map.
    cbn [List.length] in Hn. lia.
Qed.

(** Each component of the sums is a sum of its column. *)
Lemma sum0_columns (zero : F) (d : nat) (rows : list (list F)) :
  rows <> [] ->
  Forall (fun v => List.length v = d) rows ->
  List.length (sum0 add rows) = d
  /\ forall j, (j < d)%nat ->
       sum_of add (List.map (fun v => nth j v zero) rows) (nth j (sum0 add rows) zero).
Proof.
  destruct rows as [|r rest]; [congruence|]. intros _ Hrows.
  inversion Hrows as [|? ? Hr Hrest]; subst.
  unfold sum0.
  destruct (one_column (r :: rest)) eqn:E.
  - apply one_column_Forall in E.
    assert (Hd : List.length r = 1%nat) by (now inversion E).
    rewrite (concat_one_column zero (r :: rest) E).
    cbn [List.map]. split; [now rewrite Hd|].
    intros j Hj. assert (j = 0%nat) as -> by lia.
    cbn [nth]. apply sum_of_pairwise_sum.
  - split; [now apply length_fold_vadd|].
    intros j Hj.
    rewrite (nth_fold_vadd zero (List.length r) j rest r eq_refl Hrest Hj).
    cbn [List.map]. apply sum_of_sequential.
Qed.

(** Under a commutative and associative addition the mean does not depend
    on the order of the rows. *)
Section Exact.

Hypothesis add_comm : forall x y, add x y = add y x.
Hypothesis add_assoc : forall x y z, add (add x y) z = add x (add y z).

Lemma vadd_comm (a b : list F) : vadd add a b = vadd add b a.
Proof.
  revert b. induction a as [|x a IH]; intros [|y b]; simpl; try reflexivity.
  now rewrite add_comm, IH.
Qed.

Lemma vadd_assoc (a b c : list F) :
  vadd add (vadd add a b) c = vadd add a (vadd add b c).
Proof.
  revert b c. induction a as [|x a IH]; intros [|y b] [|z c]; simpl; try reflexivity.
  now rewrite add_assoc, IH.
Qed.

Lemma vadd_swap (a b c : list F) :
  vadd add (vadd add a b) c = vadd add (vadd add a c) b.
Proof.
  rewrite !vadd_assoc. f_equal. apply vadd_comm.
Qed.

Lemma fold_vadd_perm (l l' : list (list F)) :
  Permutation l l' ->
  forall a, fold_left (vadd add) l a = fold_left (vadd add) l' a.
Proof.
  induction 1 as [|x l l' _ IH|x y l|l l' l'' _ IH1 _ IH2]; intros a; simpl.
  - reflexivity.
  - apply IH.
  - now rewrite vadd_swap.
  - now rewrite IH1, IH2.
Qed.

Lemma sum_rows_perm (a b : list F) (l l' : list (list F)) :
  Permutation (a :: l) (b :: l') ->
  fold_left (vadd add) l a = fold_left (vadd add) l' b.
Proof.
  intros HP.
  assert (Hb : In b (a :: l)).
  { apply (Permutation_in b (Permutation_sym HP)). now left. }
  destruct Hb as [Hab|Hb].
  - subst b. apply Permutation_cons_inv in HP. now apply fold_vadd_perm.
  - apply in_split in Hb as (l1 & l2 & ->).
    assert (HP' : Permutation (a :: l1 ++ l2) l').
    { apply (Permutation_cons_inv (a := b)).
      transitivity (a :: l1 ++ b :: l2); [|exact HP].
      rewrite perm_swap. apply perm_skip. apply Permutation_middle. }
    rewrite <- (fold_vadd_perm _ _ HP' b).
    rewrite (fold_vadd_perm (l1 ++ b :: l2) (b :: l1 ++ l2));
      [|symmetry; apply Permutation_middle].
    simpl. now rewrite vadd_comm.
Qed.

Lemma fold_add_perm (l l' : list F) :
  Permutation l l' ->
  forall a, fold_left add l a = fold_left add l' a.
Proof.
  induction 1 as [|x l l' _ IH|x y l|l l' l'' _ IH1 _ IH2]; intros a; simpl.
  - reflexivity.
  - apply IH.
  - f_equal. rewrite !add_assoc. f_equal. apply add_comm.
  - now rewrite IH1, IH2.
Qed.

Lemma fold_add_head_perm (a b : F) (l l' : list F) :
  Permutation (a :: l) (b :: l') ->
  fold_left add l a = fold_left add l' b.
Proof.
  intros HP.
  assert (Hb : In b (a :: l)).
  { apply (Permutation_in b (Permutation_sym HP)). now left. }
  destruct Hb as [Hab|Hb].
  - subst b. apply Permutation_cons_inv in HP. now apply fold_add_perm.
  - apply in_split in Hb as (l1 & l2 & ->).
    assert (HP' : Permutation (a :: l1 ++ l2) l').
    { apply (Permutation_cons_inv (a := b)).
      transitivity (a :: l1 ++ b :: l2); [|exact HP].
      rewrite perm_swap. apply perm_skip. apply Permutation_middle. }
    rewrite <- (fold_add_perm _ _ HP' b).
    rewrite (fold_add_perm (l1 ++ b :: l2) (b :: l1 ++ l2));
      [|symmetry; apply Permutation_middle].
    simpl. now rewrite add_comm.
Qed.

Lemma add_fold_left (l : list F) :
  forall s x, add s (fold_left add l x) = fold_left add l (add s x).
Proof.
  induction l as [|y l IH]; intros s x; simpl; [reflexivity|].
  now rewrite IH, add_assoc.
Qed.

(** Every way of adding the numbers up gives the sum taken in order. *)
Lemma sum_of_unique (l : list F) (s : F) :
  sum_of add l s ->
  forall x l', Permutation l (x :: l') -> s = fold_left add l' x.
Proof.
  induction 1 as [x0|l l1 l2 a b HP Ha IH1 Hb IH2]; intros x l' HP'.
  - apply Permutation_length_1_inv in HP'. injection HP' as -> ->. reflexivity.
  - pose proof (sum_of_nonempty _ _ Ha) as N1.
    pose proof (sum_of_nonempty _ _ Hb) as N2.
    destruct l1 as [|x1 l1]; [congruence|]. destruct l2 as [|x2 l2]; [congruence|].
    rewrite (IH1 x1 l1 (Permutation_refl _)), (IH2 x2 l2 (Permutation_refl _)).
    rewrite add_fold_left.
    change (fold_left add l2 (add (fold_left add l1 x1) x2))
      with (fold_left add (x2 :: l2) (fold_left add l1 x1)).
    rewrite <- fold_left_app.
    apply fold_add_head_perm.
    transitivity l; [now symmetry|exact HP'].
Qed.

Lemma one_column_perm (rows rows' : list (list F)) :
  Permutation rows rows' -> one_column rows = one_column rows'.
Proof.
  unfold one_column.
  induction 1 as [|x l l' _ IH|x y l|l l' l'' _ IH1 _ IH2]; simpl.
  - reflexivity.
  - now rewrite IH.
  - now rewrite !andb_assoc, (andb_comm (_ =? 1)%nat).
  - now rewrite IH1.
Qed.

Lemma concat_perm (rows rows' : list (list F)) :
  Permutation rows rows' -> Permutation (concat rows) (concat rows').
Proof.
  induction 1 as [|x l l' _ IH|x y l|l l' l'' _ IH1 _ IH2]; simpl.
  - constructor.
  - now apply Permutation_app_head.
  - rewrite !List.app_assoc. apply Permutation_app_tail, Permutation_app_comm.
  - now transitivity (concat l').
Qed.

Lemma sum0_perm (rows rows' : list (list F)) :
  Permutation rows rows' -> sum0 add rows = sum0 add rows'.
Proof.
  intros HP.
  destruct rows as [|a l]; destruct rows' as [|b l'].
  - reflexivity.
  - now apply Permutation_nil in HP.
  - symmetry in HP. now apply Permutation_nil in HP.
  - unfold sum0. rewrite <- (one_column_perm _ _ HP).
    destruct (one_column (a :: l)); [|now apply sum_rows_perm].
    pose proof (concat_perm _ _ HP) as HC.
    destruct (concat (a :: l)) as [|x xs]; destruct (concat (b :: l')) as [|y ys].
    + reflexivity.
    + now apply Permutation_nil in HC.
    + symmetry in HC. now apply Permutation_nil in HC.
    + f_equal.
      rewrite (sum_of_unique _ _ (sum_of_pairwise_sum (List.length xs) x xs)
                 x xs (Permutation_refl _)).
      rewrite (sum_of_unique _ _ (sum_of_pairwise_sum (List.length ys) y ys)
                 y ys (Permutation_refl _)).
      now apply fold_add_head_perm.
Qed.

Lemma mean0_perm (rows rows' : list (list F)) :
  Permutation rows rows' ->
  mean0 add div_count rows = mean0 add div_count rows'.
Proof.
  intros HP. unfold mean0.
  now rewrite (Permutation_length HP), (sum0_perm rows rows' HP).
Qed.

Lemma members_perm (k : string) (items items' : list (string * list F)) :
  Permutation items items' ->
  Permutation (members k items) (members k items').
Proof.
  unfold members.
  induction 1 as [|x l l' _ IH|x y l|l l' l'' _ IH1 _ IH2]; simpl.
  - constructor.
  - destruct (String.eqb (fst x) k); simpl; [now constructor|exact IH].
  - destruct (String.eqb (fst x) k); destruct (String.eqb (fst y) k); simpl;
      try apply Permutation_refl. apply perm_swap.
  - now transitivity (List.map snd
                        (List.filter (fun kv => String.eqb (fst kv) k) l')).
Qed.

Lemma centroids_of_items_perm (items items' : list (string * list F)) :
  Permutation items items' ->
  forall c, In c (centroids_of_items add div_count items)
            -> In c (centroids_of_items add div_count items').
Proof.
  intros HP c Hc.
  apply centroids_of_items_spec in Hc as [Hk Hv].
  apply centroids_of_items_spec. split.
  - apply (Permutation_in _ (Permutation_map fst HP) Hk).
  - rewrite Hv. apply mean0_perm. now apply members_perm.
Qed.

End Exact.

End MeanFacts.

(** ** Centroids on float64 *)

(** numpy converts the count of a group exactly. *)
Example float_of_count_ex :
  List.map float_of_count [1; 2; 3; 4; 9; 10; 1000]%nat
  = [1; 2; 3; 4; 9; 10; 1000]%float.
Proof. reflexivity. Qed.

(** A column of nine numbers is summed in blocks: of [1e16] followed by
    eight [1], the eight partial sums are added up as a tree, and the ninth
    number is added last.  The mean is [1111111111111112]; adding the nine
    numbers up in order would lose every [1] and give the float64 next to
    [1111111111111111.1]. *)
Example mean0_one_column_blocks :
  let column := [[1e16]; [1]; [1]; [1]; [1]; [1]; [1]; [1]; [1]]%float in
  mean0 PrimFloat.add float_div_count column = [1111111111111112]%float
  /\ elementwise_mean 1 column = [0x1.f9465b8ab8e39p+49]%float.
Proof. split; reflexivity. Qed.

(** The mean numpy computes over the rows is an element-wise mean in the
    sense of the specification, for rows of one length. *)
Lemma mean0_is_elementwise_mean (d : nat) (rows : matrix) :
  rows <> [] ->
  Forall (fun v => List.length v = d) rows ->
  is_elementwise_mean d rows (mean0 PrimFloat.add float_div_count rows).
Proof.
  intros Hne Hrows.
  destruct (sum0_columns PrimFloat.add 0%float d rows Hne Hrows) as [Hlen Hcol].
  unfold is_elementwise_mean, mean0. split.
  - now rewrite List.length_map.
  - intros j Hj. exists (nth j (sum0 PrimFloat.add rows) 0%float).
    split; [exact (Hcol j Hj)|].
    rewrite (nth_indep _ 0%float (float_div_count 0%float (List.length rows)))
      by (now rewrite List.length_map, Hlen).
    now rewrite (map_nth (fun s => float_div_count s (List.length rows))).
Qed.

(** With a component count other than one, or fewer than eight rows, it is
    the mean whose sums are taken in the order of the rows. *)
Lemma mean0_elementwise (d : nat) (rows : matrix) :
  rows <> [] ->
  Forall (fun v => List.length v = d) rows ->
  (d <> 1 \/ List.length rows < 8)%nat ->
  mean0 PrimFloat.add float_div_count rows = elementwise_mean d rows.
Proof.
  destruct rows as [|r rest]; [congruence|]. intros _ Hrows Hcase.
  unfold mean0. rewrite (sum0_in_order PrimFloat.add d r rest Hrows Hcase).
  inversion Hrows as [|? ? Hr Hrest]; subst.
  unfold elementwise_mean.
  apply (nth_ext _ _ (float_div_count 0%float (List.length (r :: rest)))
                     (column_mean (r :: rest) 0%nat)).
  - rewrite !List.length_map, List.length_seq.
    now apply length_fold_vadd.
  - intros j Hj.
    rewrite List.length_map, (length_fold_vadd PrimFloat.add (List.length r)) in Hj
      by (reflexivity || exact Hrest).
    rewrite (map_nth (fun s => float_div_count s (List.length (r :: rest)))).
    rewrite (map_nth (column_mean (r :: rest))).
    rewrite seq_nth by exact Hj. simpl Nat.add.
    rewrite (nth_fold_vadd PrimFloat.add 0%float (List.length r) j rest r
               eq_refl Hrest Hj).
    reflexivity.
Qed.

Lemma map_fst_combine_eq {A B : Type} (l : list A) (l' : list B) :
  List.length l = List.length l' -> List.map fst (combine l l') = l.
Proof.
  revert l'. induction l as [|a l IH]; intros [|b l']; simpl; try discriminate.
  - reflexivity.
  - intros [= H]. now rewrite IH.
Qed.

Lemma members_incl {F : Type} (k : string) (labels : list string)
    (vectors : list (list F)) (v : list F) :
  In v (members k (combine labels vectors)) -> In v vectors.
Proof.
  unfold members. rewrite in_map_iff. intros ([k' v'] & <- & Hin).
  apply filter_In in Hin as [Hin _]. now apply in_combine_r in Hin.
Qed.

(** C7.  For parallel sequences of vectors (all of one length [d]) and
    labels, [_get_centroid_documents] emits exactly one record per distinct
    label, whose [_id] is the label and whose [centroid_vector] is the
    element-wise arithmetic mean of the vectors carrying that label: it has
    [d] components, each a float64 sum of that component over the members
    divided by the number of members.  The sum is taken in the order of the
    members when the vectors have a component count other than one or the
    label has fewer than eight members.  The vectors [[0,0],[2,2]], both
    labelled ["cluster-0"], give the single centroid [[1.0, 1.0]]; a label
    with three members and a label with one give the means over three and
    over one; nine one-component vectors, [1e16] and eight times [1], give
    the mean of the sum numpy takes in blocks, [1111111111111112]. *)
Theorem centroid_documents_elementwise_mean :
  forall (d : nat) (vectors : matrix) (labels : list string),
    List.length vectors = List.length labels ->
    Forall (fun v => List.length v = d) vectors ->
    let out := _get_centroid_documents vectors labels in
    List.NoDup (List.map _id out)
    /\ (forall l, In l (List.map _id out) <-> In l labels)
    /\ List.length out = distinct_strings labels
    /\ (forall c, In c out ->
          let rows := members (_id c) (combine labels vectors) in
          rows <> []
          /\ is_elementwise_mean d rows (centroid_vector c)
          /\ ((d <> 1 \/ List.length rows < 8)%nat ->
              centroid_vector c = elementwise_mean d rows))
    /\ _get_centroid_documents [[0; 0]; [2; 2]]%float ["cluster-0"; "cluster-0"]
       = [{| _id := "cluster-0"; centroid_vector := [1; 1]%float |}]
    /\ _get_centroid_documents [[3; 0]; [1; 7]; [6; 3]; [0; 6]]%float
                               ["a"; "b"; "a"; "a"]
       = [{| _id := "a"; centroid_vector := [3; 3]%float |};
          {| _id := "b"; centroid_vector := [1; 7]%float |}]
    /\ _get_centroid_documents
         [[1e16]; [1]; [1]; [1]; [1]; [1]; [1]; [1]; [1]]%float
         (List.repeat "cluster-0" 9)
       = [{| _id := "cluster-0"; centroid_vector := [1111111111111112]%float |}].
Proof.
  intros d vectors labels Hlen Hrect out.
  destruct (centroids_of_items_spec PrimFloat.add float_div_count
              (combine labels vectors)) as (H1 & H2 & H3).
  rewrite (map_fst_combine_eq labels vectors (eq_sym Hlen)) in H2.
  fold (centroid_documents_with PrimFloat.add float_div_count vectors labels)
    in H1, H2, H3.
  fold (_get_centroid_documents vectors labels) in H1, H2, H3. fold out in H1, H2, H3.
  split; [exact H1|]. split; [exact H2|].
  split; [|split; [|split; [|split]; reflexivity]].
  - rewrite <- (List.length_map _id out). unfold distinct_strings.
    apply Permutation_length. apply Permutation.NoDup_Permutation.
    + exact H1.
    + apply List.NoDup_nodup.
    + intros l. rewrite H2. symmetry. apply List.nodup_In.
  - intros c Hc rows. apply H3 in Hc as [Hk Hv]. fold rows in Hv. rewrite Hv.
    assert (Hne : rows <> []) by (now apply members_nonempty).
    assert (Hrows : Forall (fun v => List.length v = d) rows).
    { rewrite List.Forall_forall in Hrect |- *. intros v Hv'.
      apply Hrect. now apply (members_incl (_id c) labels). }
    split; [exact Hne|]. split.
    + now apply mean0_is_elementwise_mean.
    + now apply mean0_elementwise.
Qed.

(** C7 at the specification's example. *)
Lemma centroid_documents_elementwise_mean_example :
  let vectors := [[0; 0]; [2; 2]]%float in
  let labels := ["cluster-0"; "cluster-0"] in
  let out := _get_centroid_documents vectors labels in
  List.length out = 1%nat
  /\ forall c, In c out ->
       is_elementwise_mean 2 (members (_id c) (combine labels vectors))
                           (centroid_vector c)
       /\ centroid_vector c
          = elementwise_mean 2 (members (_id c) (combine labels vectors)).
Proof.
  intros vectors labels out.
  assert (Hlen : List.length vectors = List.length labels) by reflexivity.
  assert (Hrect : Forall (fun v : list float => List.length v = 2%nat) vectors).
  { repeat constructor. }
  destruct (centroid_documents_elementwise_mean 2 vectors labels Hlen Hrect)
    as (_ & _ & Hn & Hmean & _).
  split; [exact Hn|].
  intros c Hc. destruct (Hmean c Hc) as (_ & Hsum & Hseq).
  split; [exact Hsum|]. apply Hseq. left. discriminate.
Defined.

(** ** Order of the input *)

(** C8, as amended.  Permuting the (vector, label) pairs leaves the set of
    centroid labels unchanged, whatever the arithmetic; and it leaves the set
    of centroid records unchanged when the addition of components is
    commutative and associative, as exact arithmetic is. *)
Theorem centroid_documents_permutation_exact :
  forall (F : Type) (add : F -> F -> F) (div_count : F -> nat -> F)
         (vectors vectors' : list (list F)) (labels labels' : list string),
    Permutation (combine labels vectors) (combine labels' vectors') ->
    (forall l,
        In l (List.map _id (centroid_documents_with add div_count vectors labels))
        <-> In l (List.map _id (centroid_documents_with add div_count vectors' labels')))
    /\ ((forall x y, add x y = add y x) ->
        (forall x y z, add (add x y) z = add x (add y z)) ->
        forall c,
          In c (centroid_documents_with add div_count vectors labels)
          <-> In c (centroid_documents_with add div_count vectors' labels')).
Proof.
  intros F add div_count vectors vectors' labels labels' HP.
  unfold centroid_documents_with. split.
  - intros l.
    destruct (centroids_of_items_spec add div_count (combine labels vectors))
      as (_ & H2 & _).
    destruct (centroids_of_items_spec add div_count (combine labels' vectors'))
      as (_ & H2' & _).
    rewrite H2, H2'. split; apply Permutation_in; apply Permutation_map;
      [exact HP | now symmetry].
  - intros Hcomm Hassoc c. split.
    + now apply centroids_of_items_perm.
    + apply centroids_of_items_perm; [exact Hcomm | exact Hassoc | now symmetry].
Qed.

(** C8 on integer vectors, where addition is exact: the pairs
    [([0,0],a), ([2,2],b), ([4,6],a)] and a permutation of them. *)
Lemma centroid_documents_permutation_exact_Z :
  let div_count := fun (s : Z) (n : nat) => (s / Z.of_nat n)%Z in
  let vectors := [[0; 0]; [2; 2]; [4; 6]]%Z in
  let labels := ["a"; "b"; "a"] in
  let vectors' := [[4; 6]; [0; 0]; [2; 2]]%Z in
  let labels' := ["a"; "a"; "b"] in
  Permutation (combine labels vectors) (combine labels' vectors')
  /\ forall c,
      In c (centroid_documents_with Z.add div_count vectors labels)
      <-> In c (centroid_documents_with Z.add div_count vectors' labels').
Proof.
  intros div_count vectors labels vectors' labels'.
  assert (HP : Permutation (combine labels vectors) (combine labels' vectors')).
  { simpl.
    apply perm_trans with (l' := [("a", [0; 0]); ("a", [4; 6]); ("b", [2; 2])]%Z).
    - apply perm_skip. apply perm_swap.
    - apply perm_swap. }
  split; [exact HP|].
  apply (centroid_documents_permutation_exact Z Z.add div_count
           vectors vectors' labels labels' HP).
  - intros x y. lia.
  - intros x y z. lia.
Defined.

(** C8, as stated, fails on float64: three vectors of one cluster whose
    first components are [1e16], [1] and [-1e16] have the mean [0] in that
    order ([1e16 + 1] rounds to [1e16]) and the mean [1/3] when the last two
    are exchanged. *)
Lemma centroid_documents_permutation_float64 :
  let vectors := [[1e16; 0]; [1; 0]; [-1e16; 0]]%float in
  let vectors' := [[1e16; 0]; [-1e16; 0]; [1; 0]]%float in
  let labels := ["cluster-0"; "cluster-0"; "cluster-0"] in
  Permutation (combine labels vectors) (combine labels vectors')
  /\ ~ (forall c, In c (_get_centroid_documents vectors labels)
                  <-> In c (_get_centroid_documents vectors' labels)).
Proof.
  intros vectors vectors' labels. split.
  - simpl. apply perm_skip. apply perm_swap.
  - intros H.
    assert (Hin : In {| _id := "cluster-0"; centroid_vector := [0; 0]%float |}
                     (_get_centroid_documents vectors labels)).
    { left. reflexivity. }
    apply H in Hin. destruct Hin as [Heq|[]].
    apply (f_equal (fun c => match centroid_vector c with
                             | x :: _ => PrimFloat.ltb 0%float x
                             | [] => false
                             end)) in Heq.
    vm_compute in Heq. discriminate.
Qed.

(** ** Running a clustering *)

Lemma extract_vectors_none (vf : string) (documents : list Document) :
  Forall (fun d => is_field vf d = false) documents ->
  extract_vectors vf documents = Ok [].
Proof.
  intros H. unfold extract_vectors.
  assert (E : List.filter (is_field vf) documents = []).
  { induction H as [|d l Hd _ IH]; simpl; [reflexivity|]. now rewrite Hd. }
  now rewrite E.
Qed.




(** With fewer labels than documents the helper raises. *)
Lemma set_field_across_documents_short (field : string) :
  forall (values : list string) (docs : list Document),
    (List.length values < List.length docs)%nat ->
    set_field_across_documents field values docs = Raise IndexError.
Proof.
  intros values docs. revert values.
  induction docs as [|d docs IH]; intros [|v values]; simpl; try lia.
  - reflexivity.
  - intros H. rewrite (IH values); [reflexivity|lia].
Qed.



(** What [operate] does once the vector fields are known and the fetch
    answered: on a failure of [_fit_predict] the log holds the fetch alone; on
    success the two writes follow it. *)
Lemma operate_run (env : PyEnv) (remote : Remote) (ds : option dataset_ref)
    (vfs : option (list string)) (st : State) (vf : string) (rest : list string)
    (documents : list Document) :
  vector_fields_or_default (self_of st) vfs = Some (vf :: rest) ->
  fetch_documents remote (dataset_id_of ds) (Some (vf :: rest)) = Ok documents ->
  let self' := set_vector_field (Some vf) (set_dataset_id (dataset_id_of ds) (self_of st)) in
  let fetched := calls st ++ [GetAllDocuments (dataset_id_of ds) (Some (vf :: rest))] in
  operate env remote ds vfs st
  = match _fit_predict env (self_of st) documents vf with
    | Ok (centroid_documents, labelled_documents) =>
        (Ok tt,
         {| self_of := self';
            calls := (fetched ++ [UpdateDocuments (dataset_id_of ds) labelled_documents])
                     ++ [CentroidsInsert (dataset_id_of ds) centroid_documents
                                         [vf] (alias (self_of st))] |})
    | Raise e => (Raise e, {| self_of := self'; calls := fetched |})
    end.
Proof.
  intros Hvfs Hfetch self' fetched.
  unfold operate, mbind, get_self. cbn [self_of calls].
  rewrite Hvfs. unfold set_self, ret, _get_all_documents, mbind, send, lift.
  cbn [self_of calls]. rewrite Hfetch.
  change (_fit_predict env
            (set_vector_field (Some vf)
               (set_dataset_id (dataset_id_of ds) (self_of st))) documents vf)
    with (_fit_predict env (self_of st) documents vf).
  destruct (_fit_predict env (self_of st) documents vf) as [[cs docs]|e];
    reflexivity.
Qed.

Lemma filter_is_write_fetch (log : list RemoteCall) (ds : option string)
    (fields : option (list string)) :
  List.filter is_write (log ++ [GetAllDocuments ds fields]) = List.filter is_write log.
Proof.
  rewrite List.filter_app. simpl. apply List.app_nil_r.
Qed.

(** C5.  When a custom model returns a label array whose first dimension
    differs from the number of vectors, [operate] fails with the
    shape-mismatch error, [ValueError("incorrect shape")]; the only remote call
    made is the fetch, so no document update and no centroid insert has been
    sent. *)
Theorem wrong_length_labels_fail_before_writes :
  forall (env : PyEnv) (remote : Remote) (ds : option dataset_ref)
         (vfs : option (list string)) (st : State) (vf : string)
         (rest : list string) (documents : list Document) (vectors : matrix)
         (o : PyObject) (fit_predict : matrix -> result PyVal)
         (labels : ndarray) (n : nat),
    vector_fields_or_default (self_of st) vfs = Some (vf :: rest) ->
    fetch_documents remote (dataset_id_of ds) (Some (vf :: rest)) = Ok documents ->
    extract_vectors vf documents = Ok vectors ->
    package (self_of st) = "custom" ->
    model (self_of st) = MObj o ->
    py_fit_predict o = Some fit_predict ->
    fit_predict vectors = Ok (PyArray labels) ->
    shape0 labels = Ok n ->
    n <> List.length vectors ->
    fst (operate env remote ds vfs st) = Raise ShapeMismatchError
    /\ calls (snd (operate env remote ds vfs st))
       = calls st ++ [GetAllDocuments (dataset_id_of ds) (Some (vf :: rest))]
    /\ List.filter is_write (calls (snd (operate env remote ds vfs st)))
       = List.filter is_write (calls st).
Proof.
  intros env remote ds vfs st vf rest documents vectors o fit_predict labels n
         Hvfs Hfetch Hvec Hpkg Hmodel Hfp Hlabels Hshape Hn.
  rewrite (operate_run env remote ds vfs st vf rest documents Hvfs Hfetch).
  assert (E : _fit_predict env (self_of st) documents vf = Raise ShapeMismatchError).
  { unfold _fit_predict. rewrite Hvec. cbn [rbind].
    unfold predict_labels. rewrite Hpkg. cbn [String.eqb Ascii.eqb Bool.eqb].
    unfold call_method. rewrite Hmodel, Hfp, Hlabels. cbn [rbind].
    rewrite Hshape. cbn [rbind].
    apply Nat.eqb_neq in Hn. now rewrite Hn. }
  rewrite E. cbn [fst snd calls].
  split; [reflexivity|]. split; [reflexivity|].
  apply filter_is_write_fetch.
Qed.

(** C5 on two stored documents and a custom model that answers with a single
    label. *)
Lemma wrong_length_labels_fail_before_writes_example :
  exists self,
    __init__ bare_env (ArgObj one_label_model) (Some ["v"]) (Some "run-1")
             None None None (-1)%Z "outlier" = Ok self
    /\ let st := {| self_of := self; calls := [] |} in
       let run := operate bare_env (remote_with [doc_a; doc_b])
                          (Some (DsStr "ds")) None st in
       fst run = Raise ShapeMismatchError
       /\ calls (snd run) = [GetAllDocuments (Some "ds") (Some ["v"])]
       /\ List.filter is_write (calls (snd run)) = [].
Proof.
  eexists. split; [reflexivity|].
  cbv zeta.
  match goal with
  | |- context [operate _ _ _ _ ?st] =>
      destruct (wrong_length_labels_fail_before_writes
                  bare_env (remote_with [doc_a; doc_b]) (Some (DsStr "ds")) None st
                  "v" [] [doc_a; doc_b] [[0; 0]; [2; 2]]%float one_label_model
                  _ {| shape := [1%nat]; data := [0%Z] |} 1%nat
                  eq_refl eq_refl eq_refl eq_refl eq_refl eq_refl eq_refl eq_refl
                  ltac:(simpl; lia))
        as (H1 & H2 & H3)
  end.
  split; [exact H1|]. split; [exact H2|exact H3].
Defined.

(** C4, as amended.  Over a dataset with no vector to fit (no document, or
    no document with the vector field), when the model raises on the empty
    input, [operate] fails with the model's error and the only remote call
    made is the fetch: no document update and no centroid insert. *)
Theorem empty_input_model_error_before_writes :
  forall (env : PyEnv) (remote : Remote) (ds : option dataset_ref)
         (vfs : option (list string)) (st : State) (vf : string)
         (rest : list string) (documents : list Document) (e : error),
    vector_fields_or_default (self_of st) vfs = Some (vf :: rest) ->
    fetch_documents remote (dataset_id_of ds) (Some (vf :: rest)) = Ok documents ->
    Forall (fun d => is_field vf d = false) documents ->
    predict_labels env (self_of st) [] = Raise e ->
    fst (operate env remote ds vfs st) = Raise e
    /\ calls (snd (operate env remote ds vfs st))
       = calls st ++ [GetAllDocuments (dataset_id_of ds) (Some (vf :: rest))]
    /\ List.filter is_write (calls (snd (operate env remote ds vfs st)))
       = List.filter is_write (calls st).
Proof.
  intros env remote ds vfs st vf rest documents e Hvfs Hfetch Hnone Hmodel.
  rewrite (operate_run env remote ds vfs st vf rest documents Hvfs Hfetch).
  assert (E : _fit_predict env (self_of st) documents vf = Raise e).
  { unfold _fit_predict. rewrite (extract_vectors_none vf documents Hnone).
    cbn [rbind]. now rewrite Hmodel. }
  rewrite E. cbn [fst snd calls].
  split; [reflexivity|]. split; [reflexivity|].
  apply filter_is_write_fetch.
Qed.

(** C4 on an empty dataset and a model that refuses an empty input. *)
Lemma empty_input_model_error_before_writes_example :
  exists self,
    __init__ bare_env (ArgObj strict_model) (Some ["v"]) (Some "run-1")
             None None None (-1)%Z "outlier" = Ok self
    /\ let st := {| self_of := self; calls := [] |} in
       let run := operate bare_env (remote_with []) (Some (DsStr "ds")) None st in
       fst run = Raise (ModelError "Found array with 0 sample(s)")
       /\ calls (snd run) = [GetAllDocuments (Some "ds") (Some ["v"])]
       /\ List.filter is_write (calls (snd run)) = [].
Proof.
  eexists. split; [reflexivity|].
  cbv zeta.
  match goal with
  | |- context [operate _ _ _ _ ?st] =>
      destruct (empty_input_model_error_before_writes
                  bare_env (remote_with []) (Some (DsStr "ds")) None st
                  "v" [] [] (ModelError "Found array with 0 sample(s)")
                  eq_refl eq_refl (List.Forall_nil _) eq_refl)
        as (H1 & H2 & H3)
  end.
  split; [exact H1|]. split; [exact H2|exact H3].
Defined.

(** C4, as stated, fails: the code has no check for an empty input.  With a
    custom model that accepts zero vectors and returns an empty label array,
    [operate] over an empty dataset ends normally, after sending a document
    update and a centroid insert. *)
Lemma empty_input_accepting_model_writes :
  exists self,
    __init__ bare_env (ArgObj one_cluster_model) (Some ["v"]) (Some "run-1")
             None None None (-1)%Z "outlier" = Ok self
    /\ let st := {| self_of := self; calls := [] |} in
       let run := operate bare_env (remote_with []) (Some (DsStr "ds")) None st in
       fst run = Ok tt
       /\ List.filter is_write (calls (snd run))
          = [UpdateDocuments (Some "ds") [];
             CentroidsInsert (Some "ds") [] ["v"] "run-1"].
Proof.
  eexists. split; [reflexivity|]. cbv zeta. split; reflexivity.
Qed.




(** Whenever fewer labels come back than documents were fetched, as happens
    when a document lacks the vector field and the model yields one label per
    vector, [_fit_predict] raises [IndexError]. *)
Lemma _fit_predict_fewer_labels (env : PyEnv) (self : ClusterOps)
    (documents : list Document) (vf : string) (vectors vectors' : matrix)
    (labels : ndarray) :
  extract_vectors vf documents = Ok vectors ->
  predict_labels env self vectors = Ok (vectors', labels) ->
  (List.length (flatten_tolist labels) < List.length documents)%nat ->
  _fit_predict env self documents vf = Raise IndexError.
Proof.
  intros Hvec Hmodel Hlen. unfold _fit_predict.
  rewrite Hvec. cbn [rbind]. rewrite Hmodel. cbn [rbind].
  rewrite set_field_across_documents_short; [reflexivity|].
  now rewrite _format_labels_map, List.length_map.
Qed.

(** C3.  A fetched list in which a document lacks the vector field, followed
    by one that has it: the vector of the second is the only row fitted and
    gets the label [cluster-0], but the labels are then paired by position
    with all the fetched documents, so that label goes to the document without
    the field, the lookup of a label for the second raises [IndexError], and
    [operate] fails having written nothing. *)
Theorem missing_vector_field_breaks_labelling :
  exists self,
    __init__ bare_env (ArgObj one_cluster_model) (Some ["v"]) (Some "run-1")
             None None None (-1)%Z "outlier" = Ok self
    /\ let documents := [doc_no_vector; doc_b] in
       let st := {| self_of := self; calls := [] |} in
       let run := operate bare_env (remote_with documents)
                          (Some (DsStr "ds")) None st in
       extract_vectors "v" documents = Ok [[2; 2]%float]
       /\ predict_labels bare_env self [[2; 2]%float]
          = Ok ([[2; 2]%float], {| shape := [1%nat]; data := [0%Z] |})
       /\ set_field_across_documents (cluster_field "v" (alias self))
                                     ["cluster-0"] [doc_no_vector]
          = Ok [<["_cluster_.v.run-1" := VStr "cluster-0"]> doc_no_vector]
       /\ _fit_predict bare_env self documents "v" = Raise IndexError
       /\ fst run = Raise IndexError
       /\ List.filter is_write (calls (snd run)) = [].
Proof.
  eexists. split; [reflexivity|]. cbv zeta.
  repeat split; reflexivity.
Qed.

(** ** The alias *)







(** * Further properties of [ClusterOps] *)

(** Every way [operate] can go, by the vector fields it resolves and the
    answers of the fetch and of [_fit_predict]. *)
Lemma operate_cases (env : PyEnv) (remote : Remote) (ds : option dataset_ref)
    (vfs : option (list string)) (st : State) :
  let d := dataset_id_of ds in
  let self1 := set_dataset_id d (self_of st) in
  operate env remote ds vfs st
  = match vector_fields_or_default (self_of st) vfs with
    | Some [] => (Raise IndexError, {| self_of := self1; calls := calls st |})
    | None =>
        let st' := {| self_of := self1;
                      calls := calls st ++ [GetAllDocuments d None] |} in
        match fetch_documents remote d None with
        | Ok _ => (Raise (UnboundLocalError "vector_field"), st')
        | Raise e => (Raise e, st')
        end
    | Some (vf :: rest) =>
        let self2 := set_vector_field (Some vf) self1 in
        let fetched := calls st ++ [GetAllDocuments d (Some (vf :: rest))] in
        match fetch_documents remote d (Some (vf :: rest)) with
        | Raise e => (Raise e, {| self_of := self2; calls := fetched |})
        | Ok documents =>
            match _fit_predict env (self_of st) documents vf with
            | Ok (centroid_documents, labelled_documents) =>
                (Ok tt,
                 {| self_of := self2;
                    calls := fetched
                             ++ [UpdateDocuments d labelled_documents;
                                 CentroidsInsert d centroid_documents [vf]
                                                 (alias (self_of st))] |})
            | Raise e => (Raise e, {| self_of := self2; calls := fetched |})
            end
        end
    end.
Proof.
  intros d self1.
  destruct (vector_fields_or_default (self_of st) vfs) as [[|vf rest]|] eqn:Hvfs.
  - unfold operate, mbind, get_self, set_self, raise. cbn [self_of calls].
    now rewrite Hvfs.
  - destruct (fetch_documents remote d (Some (vf :: rest))) as [documents|e] eqn:Hf.
    + rewrite (operate_run env remote ds vfs st vf rest documents Hvfs Hf).
      destruct (_fit_predict env (self_of st) documents vf) as [[cs docs]|e];
        [|reflexivity].
      now rewrite <- List.app_assoc.
    + unfold operate, mbind, get_self, set_self, ret, _get_all_documents, mbind,
        send, lift. cbn [self_of calls]. rewrite Hvfs. cbn [self_of calls].
      fold d. now rewrite Hf.
  - unfold operate, mbind, get_self, set_self, ret, raise, _get_all_documents,
      mbind, send, lift. cbn [self_of calls]. rewrite Hvfs. cbn [self_of calls].
    fold d. now destruct (fetch_documents remote d None).
Qed.

(** Against a service that answers every write, [operate_on] is [operate]. *)
Lemma operate_on_acknowledged (env : PyEnv) (remote : Remote)
    (ds : option dataset_ref) (vfs : option (list string)) (st : State) :
  operate_on env remote acknowledged ds vfs st = operate env remote ds vfs st.
Proof.
  unfold operate_on, operate, mbind, get_self, set_self, ret, raise,
    _get_all_documents, _update_documents_on, _insert_centroids_on,
    _update_documents, _insert_centroids, mbind, send, lift, get_self, acknowledged.
  cbn [self_of calls update_documents centroids_insert].
  destruct (vector_fields_or_default (self_of st) vfs) as [[|f fs]|];
    cbn [self_of calls]; [reflexivity| |].
  - destruct (fetch_documents remote (dataset_id_of ds) (Some (f :: fs)));
      [|reflexivity].
    match goal with
    | |- context [_fit_predict ?e ?s ?d ?v] =>
        destruct (_fit_predict e s d v) as [[cs docs]|e']
    end; reflexivity.
  - destruct (fetch_documents remote (dataset_id_of ds) None); reflexivity.
Qed.

(** Every way [operate_on] can go, by the vector fields it resolves and the
    answers of the fetch, of [_fit_predict] and of the two writes. *)
Lemma operate_on_cases (env : PyEnv) (remote : Remote) (writes : Writes)
    (ds : option dataset_ref) (vfs : option (list string)) (st : State) :
  let d := dataset_id_of ds in
  let self1 := set_dataset_id d (self_of st) in
  operate_on env remote writes ds vfs st
  = match vector_fields_or_default (self_of st) vfs with
    | Some [] => (Raise IndexError, {| self_of := self1; calls := calls st |})
    | None =>
        let st' := {| self_of := self1;
                      calls := calls st ++ [GetAllDocuments d None] |} in
        match fetch_documents remote d None with
        | Ok _ => (Raise (UnboundLocalError "vector_field"), st')
        | Raise e => (Raise e, st')
        end
    | Some (vf :: rest) =>
        let self2 := set_vector_field (Some vf) self1 in
        let fetch := GetAllDocuments d (Some (vf :: rest)) in
        match fetch_documents remote d (Some (vf :: rest)) with
        | Raise e => (Raise e, {| self_of := self2; calls := calls st ++ [fetch] |})
        | Ok documents =>
            match _fit_predict env (self_of st) documents vf with
            | Raise e => (Raise e, {| self_of := self2; calls := calls st ++ [fetch] |})
            | Ok (centroid_documents, labelled_documents) =>
                let update := UpdateDocuments d labelled_documents in
                let insert := CentroidsInsert d centroid_documents [vf]
                                              (alias (self_of st)) in
                match update_documents writes d labelled_documents with
                | Raise e =>
                    (Raise e, {| self_of := self2;
                                 calls := calls st ++ [fetch; update] |})
                | Ok _ =>
                    (centroids_insert writes d centroid_documents [vf]
                                      (alias (self_of st)),
                     {| self_of := self2;
                        calls := calls st ++ [fetch; update; insert] |})
                end
            end
        end
    end.
Proof.
  intros d self1.
  unfold operate_on, mbind, get_self, set_self, ret, raise,
    _get_all_documents, _update_documents_on, _insert_centroids_on,
    mbind, send, lift, get_self.
  cbn [self_of calls]. fold d. fold self1.
  destruct (vector_fields_or_default (self_of st) vfs) as [[|vf rest]|];
    cbn [self_of calls]; [reflexivity| |].
  - destruct (fetch_documents remote d (Some (vf :: rest))) as [documents|e];
      [|reflexivity].
    change (_fit_predict env (set_vector_field (Some vf) self1) documents vf)
      with (_fit_predict env (self_of st) documents vf).
    destruct (_fit_predict env (self_of st) documents vf) as [[cs docs]|e];
      [|reflexivity].
    cbn [self_of calls].
    destruct (update_documents writes d docs) as [[]|e];
      cbn [self_of calls alias set_vector_field];
      rewrite <- ?List.app_assoc; cbn [app]; [|reflexivity].
    unfold self1. cbn [alias set_dataset_id].
    destruct (centroids_insert writes d cs [vf] (alias (self_of st))) as [[]|e];
      reflexivity.
  - destruct (fetch_documents remote d None); reflexivity.
Qed.

(** X1.  [operate] makes its two writes only after the fetch and
    [_fit_predict] have both returned, and in a fixed order.  Either it
    raises having written nothing, with at most the fetch made; or the fetch
    and [_fit_predict] returned and the update of the labelled documents was
    sent.  When that update raises, [operate] raises the same error and the
    centroids are never sent.  When it returns, the insert of the centroids
    under the alias of the instance is sent, and [operate] ends as the insert
    does: normally, or with its error, the documents being already written.
    Against a service that answers every write this is to end normally with
    the three calls made. *)
Theorem operate_writes_after_fit_in_order :
  forall (env : PyEnv) (remote : Remote) (writes : Writes)
         (ds : option dataset_ref) (vfs : option (list string)) (st : State),
    let run := operate_on env remote writes ds vfs st in
    let d := dataset_id_of ds in
    ((exists e, fst run = Raise e)
     /\ List.filter is_write (calls (snd run)) = List.filter is_write (calls st)
     /\ (calls (snd run) = calls st
         \/ exists fields, calls (snd run) = calls st ++ [GetAllDocuments d fields])
     \/ exists fields documents labelled centroids vf,
         fetch_documents remote d fields = Ok documents
         /\ _fit_predict env (self_of st) documents vf = Ok (centroids, labelled)
         /\ let fetch := GetAllDocuments d fields in
            let update := UpdateDocuments d labelled in
            let insert := CentroidsInsert d centroids [vf] (alias (self_of st)) in
            match update_documents writes d labelled with
            | Raise e =>
                fst run = Raise e
                /\ calls (snd run) = calls st ++ [fetch; update]
            | Ok _ =>
                fst run = centroids_insert writes d centroids [vf] (alias (self_of st))
                /\ calls (snd run) = calls st ++ [fetch; update; insert]
            end)
    /\ operate_on env remote acknowledged ds vfs st = operate env remote ds vfs st
    /\ (fst (operate env remote ds vfs st) = Ok tt ->
        exists fields labelled centroids vf,
          calls (snd (operate env remote ds vfs st))
          = calls st ++ [GetAllDocuments d fields;
                         UpdateDocuments d labelled;
                         CentroidsInsert d centroids [vf] (alias (self_of st))]).
Proof.
  intros env remote writes ds vfs st run d.
  split; [|split; [apply operate_on_acknowledged|]].
  - unfold run. rewrite operate_on_cases. fold d.
    destruct (vector_fields_or_default (self_of st) vfs) as [[|vf rest]|];
      cbn [fst snd calls].
    + left. split; [now eexists|]. split; [reflexivity|now left].
    + destruct (fetch_documents remote d (Some (vf :: rest))) as [documents|e] eqn:Hf;
        cbn [fst snd calls].
      * destruct (_fit_predict env (self_of st) documents vf) as [[cs docs]|e] eqn:Hp;
          cbn [fst snd calls].
        -- right. exists (Some (vf :: rest)), documents, docs, cs, vf.
           split; [exact Hf|]. split; [exact Hp|]. cbv zeta.
           destruct (update_documents writes d docs); cbn [fst snd calls];
             split; reflexivity.
        -- left. split; [now eexists|].
           split; [apply filter_is_write_fetch|]. right. now eexists.
      * left. split; [now eexists|].
        split; [apply filter_is_write_fetch|]. right. now eexists.
    + left. destruct (fetch_documents remote d None); cbn [fst snd calls];
        (split; [now eexists|]);
        (split; [apply filter_is_write_fetch|]; right; now eexists).
  - rewrite operate_cases. fold d.
    destruct (vector_fields_or_default (self_of st) vfs) as [[|vf rest]|];
      cbn [fst snd calls]; try discriminate.
    + destruct (fetch_documents remote d (Some (vf :: rest))) as [documents|e];
        cbn [fst snd calls]; [|discriminate].
      destruct (_fit_predict env (self_of st) documents vf) as [[cs docs]|e];
        cbn [fst snd calls]; [|discriminate].
      intros _. exists (Some (vf :: rest)), docs, cs, vf.
      now rewrite <- List.app_assoc.
    + destruct (fetch_documents remote d None); cbn [fst snd calls]; discriminate.
Qed.

(** X1 on two stored documents, against a service that refuses the update
    of the documents, and against one that accepts it and refuses the
    centroids. *)
Example operate_writes_after_fit_in_order_example :
  let st := {| self_of := instance_with_outliers (-1) "outlier"; calls := [] |} in
  let remote := remote_with [doc_a; doc_b] in
  let refused := Raise (RemoteError "write refused") in
  let no_update := {| update_documents := fun _ _ => refused;
                      centroids_insert := fun _ _ _ _ => Ok tt |} in
  let no_insert := {| update_documents := fun _ _ => Ok tt;
                      centroids_insert := fun _ _ _ _ => refused |} in
  (fst (operate_on bare_env remote no_update (Some (DsStr "ds")) None st) = refused
   /\ List.map is_write
        (calls (snd (operate_on bare_env remote no_update (Some (DsStr "ds")) None st)))
      = [false; true])
  /\ (fst (operate_on bare_env remote no_insert (Some (DsStr "ds")) None st) = refused
      /\ List.map is_write
           (calls (snd (operate_on bare_env remote no_insert (Some (DsStr "ds")) None st)))
         = [false; true; true]).
Proof. repeat split. Qed.

(** X2.  With no vector field, neither passed nor stored on the instance,
    [operate] still sends the fetch, for all fields, and then raises
    [UnboundLocalError] on its local [vector_field]; nothing is written. *)
Theorem operate_without_vector_fields :
  forall (env : PyEnv) (remote : Remote) (ds : option dataset_ref)
         (st : State) (documents : list Document),
    vector_fields (self_of st) = None ->
    fetch_documents remote (dataset_id_of ds) None = Ok documents ->
    let run := operate env remote ds None st in
    fst run = Raise (UnboundLocalError "vector_field")
    /\ calls (snd run) = calls st ++ [GetAllDocuments (dataset_id_of ds) None].
Proof.
  intros env remote ds st documents Hnone Hfetch run. unfold run.
  rewrite operate_cases. unfold vector_fields_or_default. rewrite Hnone.
  cbv zeta. rewrite Hfetch. split; reflexivity.
Qed.

(** X2 on an instance built without vector fields. *)
Lemma operate_without_vector_fields_example :
  exists self,
    __init__ bare_env (ArgObj one_cluster_model) None (Some "run-1")
             None None None (-1)%Z "outlier" = Ok self
    /\ let run := operate bare_env (remote_with [doc_a; doc_b]) (Some (DsStr "ds"))
                          None {| self_of := self; calls := [] |} in
       fst run = Raise (UnboundLocalError "vector_field")
       /\ calls (snd run) = [GetAllDocuments (Some "ds") None].
Proof.
  eexists. split; [reflexivity|]. cbv zeta.
  match goal with
  | |- context [operate _ _ _ _ ?st] =>
      exact (operate_without_vector_fields
               bare_env (remote_with [doc_a; doc_b]) (Some (DsStr "ds")) st
               [doc_a; doc_b] eq_refl eq_refl)
  end.
Defined.

(** X3.  With an empty list of vector fields [operate] raises [IndexError]
    before any remote call, after it has already replaced the dataset id
    stored on the instance. *)
Theorem operate_empty_vector_fields :
  forall (env : PyEnv) (remote : Remote) (ds : option dataset_ref)
         (vfs : option (list string)) (st : State),
    vector_fields_or_default (self_of st) vfs = Some [] ->
    let run := operate env remote ds vfs st in
    fst run = Raise IndexError
    /\ calls (snd run) = calls st
    /\ dataset_id (self_of (snd run)) = dataset_id_of ds
    /\ vector_field (self_of (snd run)) = vector_field (self_of st).
Proof.
  intros env remote ds vfs st Hvfs run. unfold run.
  rewrite operate_cases, Hvfs. repeat split; reflexivity.
Qed.

(** X3 on an instance that stores the dataset ["old"]. *)
Lemma operate_empty_vector_fields_example :
  exists self,
    __init__ bare_env (ArgObj one_cluster_model) (Some ["v"]) (Some "run-1")
             (Some "old") None None (-1)%Z "outlier" = Ok self
    /\ let run := operate bare_env (remote_with [doc_a]) (Some (DsStr "new"))
                          (Some []) {| self_of := self; calls := [] |} in
       fst run = Raise IndexError
       /\ calls (snd run) = []
       /\ dataset_id (self_of (snd run)) = Some "new"
       /\ vector_field (self_of (snd run)) = Some "v".
Proof.
  eexists. split; [reflexivity|]. cbv zeta.
  match goal with
  | |- context [operate _ _ _ _ ?st] =>
      exact (operate_empty_vector_fields
               bare_env (remote_with [doc_a]) (Some (DsStr "new")) (Some []) st
               eq_refl)
  end.
Defined.

(** X4.  [operate] changes two attributes of the instance and no other: the
    stored dataset id becomes the one passed, [None] included, on every path,
    and the stored vector field becomes the first of the resolved vector
    fields when there is one.  The list [vector_fields], the alias, the model,
    the package, the configuration and the outlier settings stay as they
    were. *)
Theorem operate_updates_dataset_and_vector_field :
  forall (env : PyEnv) (remote : Remote) (ds : option dataset_ref)
         (vfs : option (list string)) (st : State),
    let self' := self_of (snd (operate env remote ds vfs st)) in
    dataset_id self' = dataset_id_of ds
    /\ vector_field self'
       = match vector_fields_or_default (self_of st) vfs with
         | Some (vf :: _) => Some vf
         | _ => vector_field (self_of st)
         end
    /\ vector_fields self' = vector_fields (self_of st)
    /\ alias self' = alias (self_of st)
    /\ model self' = model (self_of st)
    /\ package self' = package (self_of st)
    /\ config self' = config (self_of st)
    /\ n_clusters self' = n_clusters (self_of st)
    /\ outlier_value self' = outlier_value (self_of st)
    /\ outlier_label self' = outlier_label (self_of st).
Proof.
  intros env remote ds vfs st. cbv zeta. rewrite operate_cases.
  destruct (vector_fields_or_default (self_of st) vfs) as [[|vf rest]|].
  - repeat split; reflexivity.
  - destruct (fetch_documents remote (dataset_id_of ds) (Some (vf :: rest)))
      as [documents|e].
    + destruct (_fit_predict env (self_of st) documents vf) as [[cs docs]|e];
        repeat split; reflexivity.
    + repeat split; reflexivity.
  - destruct (fetch_documents remote (dataset_id_of ds) None);
      repeat split; reflexivity.
Qed.

(** X5.  After [operate] has resolved a first vector field, whether it then
    succeeded or raised, [closest] and [furthest] called without arguments
    query the dataset passed to that run and that vector field, under the
    alias of the instance. *)
Theorem queries_after_operate_use_its_target :
  forall (env : PyEnv) (remote : Remote) (ds : option dataset_ref)
         (vfs : option (list string)) (st : State) (vf : string) (rest : list string),
    vector_fields_or_default (self_of st) vfs = Some (vf :: rest) ->
    let st' := snd (operate env remote ds vfs st) in
    calls (snd (closest None None None st'))
    = calls st' ++ [ListClosestToCenter (dataset_id_of ds) [Some vf]
                                        (alias (self_of st))]
    /\ calls (snd (furthest None None None st'))
       = calls st' ++ [ListFurthestFromCenter (dataset_id_of ds) [Some vf]
                                              (alias (self_of st))].
Proof.
  intros env remote ds vfs st vf rest Hvfs. cbv zeta.
  rewrite operate_cases, Hvfs. cbv zeta.
  destruct (fetch_documents remote (dataset_id_of ds) (Some (vf :: rest)))
    as [documents|e].
  - destruct (_fit_predict env (self_of st) documents vf) as [[cs docs]|e];
      split; reflexivity.
  - split; reflexivity.
Qed.

(** X5 on a run over two documents followed by [closest()]. *)
Lemma queries_after_operate_use_its_target_example :
  exists self,
    __init__ bare_env (ArgObj one_cluster_model) None (Some "run-1")
             None None None (-1)%Z "outlier" = Ok self
    /\ let st' := snd (operate bare_env (remote_with [doc_a; doc_b])
                               (Some (DsDataset "ds")) (Some ["v"; "w"])
                               {| self_of := self; calls := [] |}) in
       calls (snd (closest None None None st'))
       = calls st' ++ [ListClosestToCenter (Some "ds") [Some "v"] "run-1"]
       /\ calls (snd (furthest None None None st'))
          = calls st' ++ [ListFurthestFromCenter (Some "ds") [Some "v"] "run-1"].
Proof.
  eexists. split; [reflexivity|]. cbv zeta.
  match goal with
  | |- context [operate _ _ _ _ ?st] =>
      exact (queries_after_operate_use_its_target
               bare_env (remote_with [doc_a; doc_b]) (Some (DsDataset "ds"))
               (Some ["v"; "w"]) st "v" ["w"] eq_refl)
  end.
Defined.

(** X6.  [aggregate] called after [operate] with no dataset and no vector
    fields, or an empty list of them, targets the dataset of that run (the
    text ["None"] when the run had none) and prints that it does; it passes
    the [vector_fields] the instance was constructed with, not those of the
    run, and empty lists for the groupby, metrics, sort and filters left
    out. *)
Theorem aggregate_after_operate :
  forall (env : PyEnv) (remote : Remote) (ds : option dataset_ref)
         (vfs : option (list string)) (st : State)
         (page_size page : Z) (asc flatten : bool),
    let self' := self_of (snd (operate env remote ds vfs st)) in
    let target := PyStr.str_opt_str (dataset_id_of ds) in
    let expected :=
      ({| agg_dataset_id := target;
          agg_vector_fields := vector_fields (self_of st);
          agg_groupby := []; agg_metrics := []; agg_sort := []; agg_filters := [];
          agg_alias := alias (self_of st);
          agg_page_size := page_size; agg_page := page;
          agg_asc := asc; agg_flatten := flatten |},
       ["No dataset supplied - using last stored one '" +:+ target +:+ "'."]) in
    aggregate self' None None None None None page_size page asc flatten None
    = expected
    /\ aggregate self' (Some []) None None None None page_size page asc flatten None
       = expected.
Proof.
  intros env remote ds vfs st page_size page asc flatten. cbv zeta.
  rewrite operate_cases.
  destruct (vector_fields_or_default (self_of st) vfs) as [[|vf rest]|].
  - split; reflexivity.
  - destruct (fetch_documents remote (dataset_id_of ds) (Some (vf :: rest)))
      as [documents|e].
    + destruct (_fit_predict env (self_of st) documents vf) as [[cs docs]|e];
        split; reflexivity.
    + split; reflexivity.
  - destruct (fetch_documents remote (dataset_id_of ds) None); split; reflexivity.
Qed.

(** ** Choosing the model *)

Lemma remove_char_absent (c : ascii) (s : string) :
  PyStr.contains (String c EmptyString) (PyStr.remove_char c s) = false.
Proof.
  induction s as [|c' s IH]; [reflexivity|].
  simpl PyStr.remove_char.
  destruct (Ascii.eqb_spec c c') as [->|Hne]; [exact IH|].
  simpl. destruct (ascii_dec c c') as [Heq|_]; [contradiction|].
  simpl. exact IH.
Qed.

(** No normalised model name is ["community_detection"]: it has no
    underscore left. *)
Lemma normalised_name_not_community_detection (s : string) :
  String.eqb (PyStr.remove_char "_" (PyStr.remove_char " " (PyStr.lower s)))
             "community_detection" = false.
Proof.
  destruct (String.eqb_spec
              (PyStr.remove_char "_" (PyStr.remove_char " " (PyStr.lower s)))
              "community_detection") as [Heq|]; [|reflexivity].
  pose proof (remove_char_absent "_" (PyStr.remove_char " " (PyStr.lower s))) as H.
  rewrite Heq in H. discriminate.
Qed.

(** X7.  No spelling of a model name selects sentence-transformers'
    [community_detection]: whatever that function is, [_get_model] gives the
    same answer for every string, because the name is compared after its
    underscores have been removed. *)
Theorem community_detection_is_never_selected :
  forall (env : PyEnv) (other : PyObject) (config : Config) (s : string),
    _get_model {| construct := construct env;
                  community_detection := other;
                  astype_float32 := astype_float32 env |} config (ArgStr s)
    = _get_model env config (ArgStr s).
Proof.
  intros env other config s. unfold _get_model.
  rewrite (normalised_name_not_community_detection s). reflexivity.
Qed.

Lemma _get_model_str_package env config s mn pk m :
  _get_model env config (ArgStr s) = Ok (mn, pk, m) -> pk = None.
Proof.
  unfold _get_model.
  repeat match goal with
         | |- context [if ?b then _ else _] => destruct b
         end;
    try (intros [= _ <- _]; reflexivity);
    match goal with
    | |- context [construct env ?c config] =>
        destruct (construct env c config); simpl; [intros [= _ <- _]|intros [=]];
        reflexivity
    end.
Qed.



(** X9.  An instance built from a model name that [_get_model] left as a
    string is unusable: its package is ["custom"], and its first [operate]
    over fetched vectors raises [AttributeError] for [fit_predict], having sent
    the fetch and no write. *)
Theorem unknown_name_fails_at_first_operate :
  forall (env env' : PyEnv) (remote : Remote) (s s' : string)
         (vfs0 : option (list string)) (alias_ ds0 : option string)
         (n : option Z) (cc : option Config) (ov : Z) (ol : string)
         (self : ClusterOps) (log : list RemoteCall)
         (ds : option dataset_ref) (vfs : option (list string))
         (vf : string) (rest : list string)
         (documents : list Document) (vectors : matrix),
    __init__ env (ArgStr s) vfs0 alias_ ds0 n cc ov ol = Ok self ->
    model self = MStr s' ->
    vector_fields_or_default self vfs = Some (vf :: rest) ->
    fetch_documents remote (dataset_id_of ds) (Some (vf :: rest)) = Ok documents ->
    extract_vectors vf documents = Ok vectors ->
    let run := operate env' remote ds vfs {| self_of := self; calls := log |} in
    package self = "custom"
    /\ fst run = Raise (AttributeError "fit_predict")
    /\ calls (snd run)
       = log ++ [GetAllDocuments (dataset_id_of ds) (Some (vf :: rest))].
Proof.
  intros env env' remote s s' vfs0 alias_ ds0 n cc ov ol self log ds vfs vf rest
         documents vectors Hinit Hmodel Hvfs Hfetch Hvec run.
  assert (Hpkg : package self = "custom").
  { unfold __init__ in Hinit.
    destruct (match vfs0 with
              | None => Ok None
              | Some [] => Raise IndexError
              | Some (f :: _) => Ok (Some f)
              end) as [vf0|]; cbn [rbind] in Hinit; [|discriminate].
    destruct (_get_model env _ (ArgStr s)) as [[[mn pk] m]|] eqn:Hget;
      cbn [rbind] in Hinit; [|discriminate].
    apply _get_model_str_package in Hget. subst pk.
    destruct (_get_package m) as [pkg|] eqn:Hp; cbn [rbind] in Hinit; [|discriminate].
    destruct (_get_alias m (Some mn) _ alias_) as [al|]; cbn [rbind] in Hinit;
      [|discriminate].
    injection Hinit as <-. cbn [model package] in *. subst m.
    vm_compute in Hp. now injection Hp as <-. }
  split; [exact Hpkg|].
  unfold run.
  rewrite (operate_run env' remote ds vfs {| self_of := self; calls := log |}
             vf rest documents Hvfs Hfetch).
  cbn [self_of calls].
  assert (E : _fit_predict env' self documents vf = Raise (AttributeError "fit_predict")).
  { unfold _fit_predict. rewrite Hvec. cbn [rbind].
    unfold predict_labels. rewrite Hpkg. cbn [String.eqb Ascii.eqb Bool.eqb].
    unfold call_method. now rewrite Hmodel. }
  rewrite E. split; reflexivity.
Qed.

(** X9 on the name ["K-Medoids"]. *)
Lemma unknown_name_fails_at_first_operate_example :
  exists self,
    __init__ bare_env (ArgStr "K-Medoids") (Some ["v"]) None
             None None None (-1)%Z "outlier" = Ok self
    /\ alias self = "k-medoids"
    /\ let run := operate bare_env (remote_with [doc_a; doc_b]) (Some (DsStr "ds"))
                          None {| self_of := self; calls := [] |} in
       package self = "custom"
       /\ fst run = Raise (AttributeError "fit_predict")
       /\ calls (snd run) = [GetAllDocuments (Some "ds") (Some ["v"])].
Proof.
  eexists. split; [reflexivity|]. split; [reflexivity|]. cbv zeta.
  match goal with
  | |- context [operate _ _ _ _ {| self_of := ?s; calls := _ |}] =>
      exact (unknown_name_fails_at_first_operate
               bare_env bare_env (remote_with [doc_a; doc_b]) "K-Medoids" "k-medoids"
               (Some ["v"]) None None None None (-1)%Z "outlier" s []
               (Some (DsStr "ds")) None "v" [] [doc_a; doc_b]
               [[0; 0]; [2; 2]]%float
               eq_refl eq_refl eq_refl eq_refl eq_refl)
  end.
Defined.

(** X10.  The package name [_get_package] gives to a function called
    [community_detection] is ["sentence-transformers"], while [_fit_predict]
    tests for ["sentencetransformers"]: with the package as [_get_package]
    names it, no branch binds the labels and predicting raises
    [UnboundLocalError]. *)
Theorem community_detection_package_is_not_dispatched :
  forall (env : PyEnv) (o : PyObject),
    PyStr.contains "function" (py_class o) = true ->
    py_name o = "community_detection" ->
    _get_package (MObj o) = Ok "sentence-transformers"
    /\ forall (self : ClusterOps) (vectors : matrix),
        Ok (package self) = _get_package (MObj o) ->
        predict_labels env self vectors = Raise (UnboundLocalError "labels").
Proof.
  intros env o Hfun Hname.
  assert (E : _get_package (MObj o) = Ok "sentence-transformers").
  { unfold _get_package. cbn [class_of name_of]. rewrite Hfun, Hname. reflexivity. }
  split; [exact E|].
  intros self vectors Hpkg. rewrite E in Hpkg. injection Hpkg as Hpkg.
  unfold predict_labels. rewrite Hpkg. reflexivity.
Qed.

(** X10 on the function object itself. *)
Lemma community_detection_package_is_not_dispatched_example :
  let f :=
    {| py_class := "<class 'function'>";
       py_name := "community_detection";
       py_n_clusters := None;
       py_k := None;
       py_fit_predict := None;
       py_fit_labels := None;
       py_train_assign := None;
       py_call := Some (fun _ => Ok (PyList [0%Z])) |} in
  _get_package (MObj f) = Ok "sentence-transformers"
  /\ forall (self : ClusterOps) (vectors : matrix),
      Ok (package self) = _get_package (MObj f) ->
      predict_labels bare_env self vectors = Raise (UnboundLocalError "labels").
Proof.
  intros f.
  exact (community_detection_package_is_not_dispatched bare_env f eq_refl eq_refl).
Defined.

(** ** The order of the centroid records *)

Lemma first_occurrences_snoc (l : list string) (k : string) :
  rev (nodup string_dec (rev (l ++ [k])))
  = if in_dec string_dec k l
    then rev (nodup string_dec (rev l))
    else rev (nodup string_dec (rev l)) ++ [k].
Proof.
  rewrite List.rev_app_distr. simpl.
  destruct (in_dec string_dec k (rev l)) as [Hin|Hnin];
    destruct (in_dec string_dec k l) as [Hin'|Hnin']; try reflexivity.
  - exfalso. apply Hnin'. now apply in_rev.
  - exfalso. apply Hnin. now apply in_rev in Hin'.
Qed.

Lemma keys_group_by_label {F : Type} (items : list (string * list F)) :
  List.map fst (group_by_label items)
  = rev (nodup string_dec (rev (List.map fst items))).
Proof.
  induction items as [|[k v] items IH] using rev_ind; [reflexivity|].
  unfold group_by_label in *. rewrite fold_left_app. cbn [fold_left].
  rewrite keys_group_step, List.map_app. simpl List.map.
  rewrite first_occurrences_snoc, <- IH.
  destruct (dict_contains k (fold_left group_step items [])) eqn:E;
    destruct (in_dec string_dec k (List.map fst items)) as [Hin|Hnin];
    try reflexivity.
  - exfalso. apply Hnin. apply dict_contains_In in E.
    rewrite IH in E. apply in_rev in E. now apply List.nodup_In, in_rev in E.
  - exfalso. assert (H : dict_contains k (fold_left group_step items []) = true).
    { apply dict_contains_In. rewrite IH. apply in_rev.
      rewrite List.rev_involutive. apply List.nodup_In. now apply in_rev in Hin. }
    congruence.
Qed.

(** X11.  The centroid records come in the order in which their labels
    first appear in the input: reading the labels from the left and keeping
    each one the first time it is met gives the sequence of their [_id]s. *)
Theorem centroid_documents_in_order_of_first_appearance :
  forall (vectors : matrix) (labels : list string),
    List.length vectors = List.length labels ->
    List.map _id (_get_centroid_documents vectors labels)
    = rev (nodup string_dec (rev labels)).
Proof.
  intros vectors labels Hlen.
  unfold _get_centroid_documents, centroid_documents_with, centroids_of_items.
  rewrite ids_centroid_records, keys_group_by_label.
  now rewrite (map_fst_combine_eq labels vectors (eq_sym Hlen)).
Qed.

(** X11 on the labels [b, a, b, c, a]. *)
Lemma centroid_documents_in_order_of_first_appearance_example :
  List.map _id (_get_centroid_documents
                  [[1]; [2]; [3]; [4]; [5]]%float ["b"; "a"; "b"; "c"; "a"])
  = ["b"; "a"; "c"].
Proof.
  exact (centroid_documents_in_order_of_first_appearance
           [[1]; [2]; [3]; [4]; [5]]%float ["b"; "a"; "b"; "c"; "a"] eq_refl).
Defined.

(** * [OperationManager.clean] *)

Lemma clean_doc_lookup {V : Type} (before_doc after_doc : gmap string V) (k : string) :
  Manager.clean_doc before_doc after_doc !! k
  = if decide (before_doc !! k = None \/ k = "_id") then after_doc !! k else None.
Proof.
  unfold Manager.clean_doc.
  destruct (decide (before_doc !! k = None \/ k = "_id")) as [Hkeep|Hdrop].
  - destruct (after_doc !! k) as [v|] eqn:Ha.
    + apply map_lookup_filter_Some. split; [exact Ha|]. simpl.
      destruct Hkeep as [Hnone|Hid]; [left|now right].
      now apply not_elem_of_dom.
    + apply map_lookup_filter_None. now left.
  - apply map_lookup_filter_None. right. intros v _ [Hnew|Hid]; simpl in *.
    + apply Hdrop. left. now apply not_elem_of_dom.
    + apply Hdrop. now right.
Qed.

Lemma clean_nth_error {V : Type} (before_docs after_docs : list (gmap string V)) :
  forall i b a,
    nth_error before_docs i = Some b ->
    nth_error after_docs i = Some a ->
    nth_error (Manager.clean before_docs after_docs) i = Some (Manager.clean_doc b a).
Proof.
  revert after_docs.
  induction before_docs as [|b0 bs IH]; intros [|a0 as_] [|i] b a; simpl;
    try discriminate.
  - now intros [= ->] [= ->].
  - apply IH.
Qed.

(** X12.  The update [clean] builds for a document holds its ["_id"] and
    the fields the operation added, and never a field the document had
    before, even when the operation changed its value. *)
Theorem clean_keeps_new_fields_and_id :
  forall (V : Type) (before_docs after_docs : list (gmap string V))
         (i : nat) (b a : gmap string V),
    nth_error before_docs i = Some b ->
    nth_error after_docs i = Some a ->
    exists u,
      nth_error (Manager.clean before_docs after_docs) i = Some u
      /\ u !! "_id" = a !! "_id"
      /\ (forall k, b !! k = None -> u !! k = a !! k)
      /\ (forall k, k <> "_id" -> is_Some (b !! k) -> u !! k = None).
Proof.
  intros V before_docs after_docs i b a Hb Ha.
  exists (Manager.clean_doc b a).
  split; [now apply clean_nth_error|].
  split; [|split].
  - rewrite clean_doc_lookup. destruct (decide _) as [_|Hn]; [reflexivity|].
    exfalso. apply Hn. now right.
  - intros k Hk. rewrite clean_doc_lookup. destruct (decide _) as [_|Hn]; [reflexivity|].
    exfalso. apply Hn. now left.
  - intros k Hk [v Hv]. rewrite clean_doc_lookup.
    destruct (decide _) as [[Hnone|Hid]|_]; [congruence|contradiction|reflexivity].
Qed.

(** X12 on a document whose field ["title"] was rewritten while a label was
    added. *)
Lemma clean_keeps_new_fields_and_id_example :
  let before : gmap string string :=
    <["_id" := "7"]> (<["title" := "old"]> ∅) in
  let after : gmap string string :=
    <["_id" := "7"]> (<["title" := "new"]> (<["label" := "x"]> ∅)) in
  exists u,
    nth_error (Manager.clean [before] [after]) 0 = Some u
    /\ u !! "_id" = Some "7"
    /\ u !! "label" = Some "x"
    /\ u !! "title" = None.
Proof.
  intros before after.
  destruct (clean_keeps_new_fields_and_id string [before] [after] 0 before after
              eq_refl eq_refl) as (u & Hu & Hid & Hnew & Hold).
  exists u. split; [exact Hu|]. split; [exact Hid|]. split.
  - rewrite (Hnew "label" eq_refl). reflexivity.
  - apply Hold; [discriminate|]. now exists "old".
Defined.

(** X13.  When the operation only added fields, writing each update of
    [clean] over the document it was built from (the fields of the update
    win, the others stay) gives back the document the operation produced. *)
Theorem clean_update_restores_after :
  forall (V : Type) (before_docs after_docs : list (gmap string V)),
    Forall2 (fun b a : gmap string V => b ⊆ a) before_docs after_docs ->
    zip_with (fun update stored : gmap string V => update ∪ stored)
             (Manager.clean before_docs after_docs) before_docs
    = after_docs.
Proof.
  intros V before_docs after_docs H.
  induction H as [|b a bs as_ Hsub _ IH]; [reflexivity|].
  simpl. f_equal; [|exact IH].
  apply map_eq. intros k.
  rewrite lookup_union, clean_doc_lookup.
  destruct (b !! k) as [v|] eqn:Hb.
  - assert (Ha : a !! k = Some v) by (eapply lookup_weaken; eauto).
    rewrite Ha. now destruct (decide _).
  - destruct (decide _) as [_|Hn]; [now destruct (a !! k)|].
    exfalso. apply Hn. now left.
Qed.

(** X13 on a document that received a label. *)
Lemma clean_update_restores_after_example :
  let before : gmap string string :=
    <["_id" := "7"]> (<["title" := "old"]> ∅) in
  let after : gmap string string := <["label" := "x"]> before in
  zip_with (fun update stored : gmap string string => update ∪ stored)
           (Manager.clean [before] [after]) [before]
  = [after].
Proof.
  intros before after.
  apply clean_update_restores_after.
  constructor; [|constructor].
  apply insert_subseteq. reflexivity.
Defined.

(** X14.  [clean] pairs the two lists by position and stops at the shorter:
    the result has the length of the shorter list, and cleaning documents
    against themselves leaves of each only its ["_id"]. *)
Theorem clean_pairs_by_position :
  forall (V : Type) (before_docs after_docs : list (gmap string V)),
    List.length (Manager.clean before_docs after_docs)
    = Nat.min (List.length before_docs) (List.length after_docs)
    /\ Manager.clean before_docs before_docs
       = List.map (filter (fun kv : string * V => kv.1 = "_id")) before_docs.
Proof.
  intros V before_docs after_docs. split.
  - revert after_docs. induction before_docs as [|b bs IH]; intros [|a as_]; simpl;
      try reflexivity. now rewrite IH.
  - clear after_docs. induction before_docs as [|b bs IH]; [reflexivity|].
    simpl. f_equal; [|exact IH].
    apply map_eq. intros k. rewrite clean_doc_lookup.
    destruct (b !! k) as [v|] eqn:Hb.
    + destruct (decide (k = "_id")) as [->|Hne].
      * destruct (decide _) as [_|Hn]; [|exfalso; apply Hn; now right].
        symmetry. now apply map_lookup_filter_Some.
      * destruct (decide _) as [[Hnone|Hid]|_]; [congruence|contradiction|].
        symmetry. apply map_lookup_filter_None. right. intros v' _. exact Hne.
    + destruct (decide _); symmetry; apply map_lookup_filter_None; now left.
Qed.

(** * [Transport.make_http_request] *)

Section TransportFacts.

Variable self : Transport.Transport.
Variable network : nat -> Transport.Outcome.
Variable endpoint method output_format : string.

Let sent : Transport.Event :=
  Transport.Sent method (Transport.base_url self +:+ endpoint)
                 (Transport.auth_header self).

Hypothesis method_ok : String.eqb method "POST" || String.eqb method "GET" = true.







End TransportFacts.

(** Whatever the method and the network, the loop sends at most one request
    per round, each to [base_url + endpoint] with the authorization header, and
    sleeps only for the configured time. *)
Lemma attempts_bounded (self : Transport.Transport) (network : nat -> Transport.Outcome)
    (endpoint method output_format : string) (left : nat) :
  forall i,
    let events :=
      snd (Transport.attempts self network endpoint method output_format i left) in
    (List.length (Transport.requests events) <= left)%nat
    /\ Forall (fun e =>
                 e = Transport.Sent method (Transport.base_url self +:+ endpoint)
                                    (Transport.auth_header self)
                 \/ e = Transport.Slept (Transport.seconds_between_retries self))
              events.
Proof.
  induction left as [|left IH]; intros i; cbv zeta; [split; [simpl; lia|constructor]|].
  cbn [Transport.attempts].
  destruct (String.eqb method "POST" || String.eqb method "GET");
    [|split; [simpl; lia|constructor]].
  specialize (IH (S i)). cbv zeta in IH. destruct IH as [IH1 IH2].
  destruct (Transport.attempts self network endpoint method output_format (S i) left)
    as [r later]. cbn [snd] in IH1, IH2.
  destruct (network i) as [resp| |exc]; cbn [snd].
  - destruct (Z.eqb (Transport.status_code resp) 200).
    + destruct (String.eqb output_format "json").
      * destruct (Transport.json_body resp); cbn [snd].
        -- split; [simpl; lia|]. constructor; [now left|constructor].
        -- split; [simpl; lia|]. constructor; [now left|exact IH2].
      * split; [simpl; lia|]. constructor; [now left|constructor].
    + destruct (Transport.content_decodes resp); cbn [snd].
      * split; [simpl; lia|]. constructor; [now left|exact IH2].
      * split; [simpl; lia|]. constructor; [now left|constructor].
  - split; [simpl; lia|].
    constructor; [now left|]. constructor; [now right|exact IH2].
  - split; [simpl; lia|]. constructor; [now left|constructor].
Qed.





(** X17.  A method other than [GET] and [POST] is rejected with a
    [ValueError] before any request, but only inside the retry loop: with a
    retry count of zero or less the method is not looked at and the call
    returns [None]. *)
Theorem make_http_request_rejects_other_methods :
  forall (self : Transport.Transport) (network : nat -> Transport.Outcome)
         (endpoint method output_format : string),
    String.eqb method "POST" || String.eqb method "GET" = false ->
    Transport.make_http_request self network endpoint method output_format
    = if (0 <? Transport.number_of_retries self)%Z
      then (Transport.RaisesValueError
              ("You require a GET or a POST method, not " +:+ method +:+ "."), [])
      else (Transport.ReturnsNone, []).
Proof.
  intros self network endpoint method output_format Hm.
  unfold Transport.make_http_request.
  destruct (Z.ltb_spec 0 (Transport.number_of_retries self)) as [Hpos|Hneg].
  - destruct (Z.to_nat (Transport.number_of_retries self)) as [|left] eqn:E; [lia|].
    cbn [Transport.attempts]. now rewrite Hm.
  - replace (Z.to_nat (Transport.number_of_retries self)) with O by lia.
    reflexivity.
Qed.

(** X17 on the method [PUT], with three retries. *)
Lemma make_http_request_rejects_other_methods_example :
  let self := {| Transport.project := "p"; Transport.api_key := "k";
                 Transport.base_url := "https://api/";
                 Transport.number_of_retries := 3;
                 Transport.seconds_between_retries := 2 |} in
  Transport.make_http_request self (fun _ => Transport.RaisesConnectionError)
                              "datasets/list" "PUT" "json"
  = (Transport.RaisesValueError "You require a GET or a POST method, not PUT.", []).
Proof.
  intros self.
  exact (make_http_request_rejects_other_methods
           self (fun _ => Transport.RaisesConnectionError) "datasets/list" "PUT" "json"
           eq_refl).
Defined.

(** X18.  Whatever happens, [make_http_request] sends at most
    [number_of_retries] requests, every one to [base_url + endpoint] with the
    header [project:api_key], and sleeps only for [seconds_between_retries]. *)
Theorem make_http_request_is_bounded :
  forall (self : Transport.Transport) (network : nat -> Transport.Outcome)
         (endpoint method output_format : string),
    let events :=
      snd (Transport.make_http_request self network endpoint method output_format) in
    (Z.of_nat (List.length (Transport.requests events))
     <= Z.max 0 (Transport.number_of_retries self))%Z
    /\ Forall (fun e =>
                 e = Transport.Sent method (Transport.base_url self +:+ endpoint)
                                    (Transport.project self +:+ ":"
                                     +:+ Transport.api_key self)
                 \/ e = Transport.Slept (Transport.seconds_between_retries self))
              events.
Proof.
  intros self network endpoint method output_format. cbv zeta.
  unfold Transport.make_http_request.
  destruct (attempts_bounded self network endpoint method output_format
              (Z.to_nat (Transport.number_of_retries self)) O) as [H1 H2].
  split; [lia|exact H2].
Qed.

(** * [ExtractNER] *)

Lemma run_loop_app (st : NER.Locals) (l l' : list NER.Entity) :
  NER.run_loop st (l ++ l')
  = (let! st' := NER.run_loop st l in NER.run_loop st' l').
Proof.
  revert st. induction l as [|e l IH]; intros st; simpl; [reflexivity|].
  destruct (NER.step st e) as [st'|err]; simpl; [apply IH|reflexivity].
Qed.

Lemma prefix_I_not_B (s : string) :
  String.prefix "I-" s = true -> String.prefix "B-" s = false.
Proof.
  destruct s as [|c s]; [discriminate|]. cbn [String.prefix].
  destruct (ascii_dec "I" c) as [<-|]; intros H; [reflexivity|discriminate H].
Qed.

Lemma step_untagged (st : NER.Locals) (e : NER.Entity) :
  untagged e = true -> NER.step st e = Ok st.
Proof.
  unfold untagged, NER.step. intros H. apply andb_true_iff in H as [HB HI].
  apply negb_true_iff in HB, HI. now rewrite HB, HI.
Qed.

Lemma run_loop_untagged (st : NER.Locals) (l : list NER.Entity) :
  Forall (fun e => untagged e = true) l -> NER.run_loop st l = Ok st.
Proof.
  induction 1 as [|e l He _ IH]; simpl; [reflexivity|].
  now rewrite (step_untagged st e He).
Qed.

(** X19.  When the first entity tagged [B-] or [I-] is an [I-] entity,
    [extract_ner] raises [UnboundLocalError]: the local [word] it appends to
    has not been bound. *)
Theorem extract_ner_leading_inside_tag_raises :
  forall (self : NER.ExtractNER) (text : NER.NerValue)
         (before : list NER.Entity) (e : NER.Entity) (after : list NER.Entity),
    NER.classifier self text = before ++ e :: after ->
    Forall (fun x => untagged x = true) before ->
    String.prefix "I-" (NER.entity e) = true ->
    NER.extract_ner self text = Raise (UnboundLocalError "word").
Proof.
  intros self text before e after Hcls Hbefore He.
  unfold NER.extract_ner. rewrite Hcls, run_loop_app.
  rewrite (run_loop_untagged _ before Hbefore). cbn [rbind NER.run_loop].
  unfold NER.step. rewrite (prefix_I_not_B _ He), He. reflexivity.
Qed.

(** X19 on a text whose entities are tagged [O], [I-ORG], [I-ORG]. *)
Lemma extract_ner_leading_inside_tag_raises_example :
  let self :=
    {| NER.fields := ["text"]; NER.output_fields := ["out"];
       NER.classifier := fun _ =>
         [ {| NER.entity := "O"; NER.word := "the" |};
           {| NER.entity := "I-ORG"; NER.word := "Hot" |};
           {| NER.entity := "I-ORG"; NER.word := "Wheel" |} ] |} in
  NER.extract_ner self (NER.Text "the Hot Wheel") = Raise (UnboundLocalError "word").
Proof.
  intros self.
  apply (extract_ner_leading_inside_tag_raises
           self (NER.Text "the Hot Wheel")
           [ {| NER.entity := "O"; NER.word := "the" |} ]
           {| NER.entity := "I-ORG"; NER.word := "Hot" |}
           [ {| NER.entity := "I-ORG"; NER.word := "Wheel" |} ]).
  - reflexivity.
  - repeat constructor.
  - reflexivity.
Defined.

Lemma run_loop_begin_tags (w : string) (l : list NER.Entity) :
  forall acc,
    Forall (fun x => String.prefix "B-" (NER.entity x) = true) l ->
    NER.run_loop {| NER.cur_word := Some w; NER.is_recorded := false;
                    NER.new_entities := acc |} l
    = Ok {| NER.cur_word := Some w; NER.is_recorded := false;
            NER.new_entities :=
              acc ++ List.map (fun x => {| NER.found_word := w;
                                           NER.found_type :=
                                             NER.replace "I-" "" (NER.entity x) |}) l |}.
Proof.
  induction l as [|e l IH]; intros acc Hall; simpl.
  - now rewrite List.app_nil_r.
  - inversion Hall as [|? ? He Hl]; subst.
    unfold NER.step. rewrite He. cbn [NER.is_recorded NER.read_word NER.cur_word rbind
                                     NER.new_entities].
    rewrite (IH _ Hl). now rewrite <- List.app_assoc.
Qed.

(** X20.  On a run of entities all tagged [B-], that is of one-token
    entities, [extract_ner] reports nothing for the first, and for each later
    one a record that carries the word of the first entity under the tag of
    the later one; the words of the later entities are never used. *)
Theorem extract_ner_on_begin_tags_only :
  forall (self : NER.ExtractNER) (text : NER.NerValue)
         (e : NER.Entity) (rest : list NER.Entity),
    NER.classifier self text = e :: rest ->
    Forall (fun x => String.prefix "B-" (NER.entity x) = true) (e :: rest) ->
    NER.extract_ner self text
    = Ok (List.map (fun x => {| NER.found_word := NER.word e;
                                NER.found_type :=
                                  NER.replace "I-" "" (NER.entity x) |}) rest).
Proof.
  intros self text e rest Hcls Hall.
  inversion Hall as [|? ? He Hrest]; subst.
  unfold NER.extract_ner. rewrite Hcls. cbn [NER.run_loop].
  unfold NER.step at 1. rewrite He. cbn [NER.is_recorded rbind NER.new_entities].
  rewrite (run_loop_begin_tags (NER.word e) rest [] Hrest). reflexivity.
Qed.

(** X20 on two one-token entities, a person and a place. *)
Lemma extract_ner_on_begin_tags_only_example :
  let self :=
    {| NER.fields := ["text"]; NER.output_fields := ["out"];
       NER.classifier := fun _ =>
         [ {| NER.entity := "B-PER"; NER.word := "Ada" |};
           {| NER.entity := "B-LOC"; NER.word := "Paris" |} ] |} in
  NER.extract_ner self (NER.Text "Ada in Paris")
  = Ok [ {| NER.found_word := "Ada"; NER.found_type := "B-LOC" |} ].
Proof.
  intros self.
  apply (extract_ner_on_begin_tags_only
           self (NER.Text "Ada in Paris")
           {| NER.entity := "B-PER"; NER.word := "Ada" |}
           [ {| NER.entity := "B-LOC"; NER.word := "Paris" |} ]).
  - reflexivity.
  - repeat constructor.
Defined.

Lemma run_loop_filter_tagged (l : list NER.Entity) :
  forall st,
    NER.run_loop st (List.filter (fun e => negb (untagged e)) l) = NER.run_loop st l.
Proof.
  induction l as [|e l IH]; intros st; simpl; [reflexivity|].
  destruct (untagged e) eqn:He; simpl.
  - rewrite (step_untagged st e He). apply IH.
  - destruct (NER.step st e); simpl; [apply IH|reflexivity].
Qed.

(** X21.  Entities whose tag starts with neither [B-] nor [I-] have no
    effect on [extract_ner]: dropping them from the classifier's output leaves
    its result, or the error it raises, the same. *)
Theorem extract_ner_ignores_untagged_entities :
  forall (self : NER.ExtractNER) (text : NER.NerValue),
    NER.extract_ner
      {| NER.fields := NER.fields self;
         NER.output_fields := NER.output_fields self;
         NER.classifier := fun t =>
           List.filter (fun e => negb (untagged e)) (NER.classifier self t) |}
      text
    = NER.extract_ner self text.
Proof.
  intros self text. unfold NER.extract_ner. cbn [NER.classifier].
  now rewrite run_loop_filter_tagged.
Qed.

(** X22.  [extract_ner_from_document] cannot store an entity: when
    [extract_ner] finds any in the first field, building the value to store
    calls [strip] on a dict, the method raises [AttributeError] and the
    document is left as it was. *)
Theorem extract_ner_from_document_raises_on_entities :
  forall (self : NER.ExtractNER) (document : NER.NerDocument)
         (text_field : string) (rest : list string) (text : NER.NerValue)
         (found : NER.Found) (more : list NER.Found),
    NER.fields self = text_field :: rest ->
    document !! text_field = Some text ->
    NER.extract_ner self text = Ok (found :: more) ->
    NER.extract_ner_from_document self document
    = (Raise (AttributeError "strip"), document).
Proof.
  intros self document text_field rest text found more Hfields Htext Hner.
  unfold NER.extract_ner_from_document. rewrite Hfields. cbn [NER.fields_loop].
  unfold NER.get_field. rewrite Htext. cbn [rbind]. rewrite Hner. reflexivity.
Qed.

(** X22 on a text with the organisation [Hot Wheel]. *)
Lemma extract_ner_from_document_raises_on_entities_example :
  let self :=
    {| NER.fields := ["text"]; NER.output_fields := ["out"];
       NER.classifier := fun _ =>
         [ {| NER.entity := "B-ORG"; NER.word := "Hot" |};
           {| NER.entity := "I-ORG"; NER.word := "Wheel" |} ] |} in
  let document : NER.NerDocument := <["text" := NER.Text "a Hot Wheel"]> ∅ in
  NER.extract_ner self (NER.Text "a Hot Wheel")
  = Ok [ {| NER.found_word := "Hot Wheel"; NER.found_type := "ORG" |} ]
  /\ NER.extract_ner_from_document self document
     = (Raise (AttributeError "strip"), document)
  /\ NER.transform self [document] = (Raise (AttributeError "strip"), [document]).
Proof.
  intros self document.
  assert (H : NER.extract_ner_from_document self document
              = (Raise (AttributeError "strip"), document)).
  { apply (extract_ner_from_document_raises_on_entities
             self document "text" [] (NER.Text "a Hot Wheel")
             {| NER.found_word := "Hot Wheel"; NER.found_type := "ORG" |} []);
      reflexivity. }
  split; [reflexivity|]. split; [exact H|].
  cbn [NER.transform]. now rewrite H.
Defined.

Lemma fields_loop_writes_empty (self : NER.ExtractNER) (todo : list string) :
  forall (i : nat) (document : NER.NerDocument) (k : string),
    snd (NER.fields_loop self i todo document) !! k = document !! k
    \/ snd (NER.fields_loop self i todo document) !! k = Some (NER.Chunks []).
Proof.
  induction todo as [|text_field todo IH]; intros i document k; [now left|].
  cbn [NER.fields_loop].
  destruct (NER.get_field text_field document) as [text|e]; cbn [rbind]; [|now left].
  destruct (NER.extract_ner self text) as [[|found more]|e]; cbn [rbind];
    [|now left|now left].
  cbn [NER.split_text_value rbind].
  destruct (nth_error (NER.output_fields self) i) as [out|]; [|now left].
  destruct (IH (S i) (NER.set_field out document (NER.Chunks [])) k) as [H|H];
    [|now right].
  rewrite H. unfold NER.set_field.
  destruct (decide (out = k)) as [->|Hne].
  - right. apply lookup_insert_eq.
  - left. now apply lookup_insert_ne.
Qed.

(** X23.  Whatever the classifier finds and however a run of [transform]
    ends, every document comes out with each of its fields either as it was
    or set to the empty list: no entity is ever written to a document, and
    no document is added or dropped. *)
Theorem transform_only_writes_empty_lists :
  forall (self : NER.ExtractNER) (documents : list NER.NerDocument),
    Forall2 (fun before after : NER.NerDocument =>
               forall k, after !! k = before !! k
                         \/ after !! k = Some (NER.Chunks []))
            documents (snd (NER.transform self documents)).
Proof.
  intros self documents. induction documents as [|document rest IH]; [constructor|].
  cbn [NER.transform].
  pose proof (fields_loop_writes_empty self (NER.fields self) O document) as Hdoc.
  fold (NER.extract_ner_from_document self document) in Hdoc.
  destruct (NER.extract_ner_from_document self document) as [[u|e] document'];
    cbn [snd] in Hdoc.
  - destruct (NER.transform self rest) as [r rest']. cbn [snd] in *.
    constructor; [exact Hdoc|exact IH].
  - cbn [snd]. constructor; [exact Hdoc|].
    clear. induction rest as [|d rest IH]; constructor; [now left|exact IH].
Qed.

(** * [setup.get_version] *)

Lemma prefix_append (s t : string) : String.prefix s (s +:+ t) = true.
Proof.
  induction s as [|c s IH]; simpl; [now destruct t|].
  destruct (ascii_dec c c); [exact IH|contradiction].
Qed.

Lemma append_assoc_eq (a b c : string) : (a +:+ b) +:+ c = a +:+ (b +:+ c).
Proof.
  induction a as [|x a IH]; [reflexivity|].
  change (String x ((a +:+ b) +:+ c) = String x (a +:+ (b +:+ c))).
  now f_equal.
Qed.

Lemma contains_char_cons (c c' : ascii) (s : string) :
  PyStr.contains (String c EmptyString) (String c' s)
  = Ascii.eqb c c' || PyStr.contains (String c EmptyString) s.
Proof.
  cbn [PyStr.contains String.prefix].
  destruct (ascii_dec c c') as [->|Hne].
  - rewrite Ascii.eqb_refl. now destruct s.
  - apply Ascii.eqb_neq in Hne. now rewrite Hne.
Qed.

Lemma contains_char_app (c : ascii) (a b : string) :
  PyStr.contains (String c EmptyString) (a +:+ b)
  = PyStr.contains (String c EmptyString) a || PyStr.contains (String c EmptyString) b.
Proof.
  induction a as [|c' a IH].
  - simpl. now destruct b.
  - change (String c' a +:+ b) with (String c' (a +:+ b)).
    rewrite !contains_char_cons, IH. apply orb_assoc.
Qed.

(** Splitting at a character: the first piece is what precedes its first
    occurrence. *)
Lemma split_aux_char (c : ascii) (a t : string) :
  PyStr.contains (String c EmptyString) a = false ->
  PyStr.split_aux (String c EmptyString) O (a +:+ String c t)
  = (a, let '(x, xs) := PyStr.split_aux (String c EmptyString) O t in x :: xs).
Proof.
  induction a as [|c' a IH]; intros Ha.
  - simpl.
    destruct (ascii_dec c c) as [_|]; [|contradiction].
    replace (String.prefix "" t) with true by now destruct t.
    now destruct (PyStr.split_aux (String c EmptyString) O t).
  - rewrite contains_char_cons in Ha. apply orb_false_iff in Ha as [Hc Ha].
    change (String c' a +:+ String c t) with (String c' (a +:+ String c t)).
    simpl.
    apply Ascii.eqb_neq in Hc.
    destruct (ascii_dec c c') as [|_]; [contradiction|].
    now rewrite (IH Ha).
Qed.

(** Without the character there is nothing to split. *)
Lemma split_aux_no_char (c : ascii) (a : string) :
  PyStr.contains (String c EmptyString) a = false ->
  PyStr.split_aux (String c EmptyString) O a = (a, []).
Proof.
  induction a as [|c' a IH]; intros Ha; [reflexivity|].
  rewrite contains_char_cons in Ha. apply orb_false_iff in Ha as [Hc Ha].
  simpl.
  apply Ascii.eqb_neq in Hc.
  destruct (ascii_dec c c') as [|_]; [contradiction|].
  now rewrite (IH Ha).
Qed.

Lemma get_version_skips (before : list string) (rest : list string) :
  Forall (fun l => String.prefix "__version__" l = false) before ->
  Setup.get_version (before ++ rest) = Setup.get_version rest.
Proof.
  induction 1 as [|l before Hl _ IH]; [reflexivity|].
  cbn [List.app Setup.get_version]. now rewrite Hl.
Qed.

(** X24.  [get_version] reads back a version written between double quotes:
    on the first line that starts with [__version__], when that line holds a
    double quote, the result is the text between its first two double quotes,
    whatever precedes them on the line (single quotes included) and whatever
    follows. *)
Theorem get_version_reads_between_double_quotes :
  forall (before after : list string) (head v tail : string),
    Forall (fun l => String.prefix "__version__" l = false) before ->
    PyStr.contains Setup.dquote head = false ->
    PyStr.contains Setup.dquote v = false ->
    Setup.get_version
      (before
       ++ ("__version__" +:+ head +:+ Setup.dquote +:+ v +:+ Setup.dquote +:+ tail)
       :: after)
    = Setup.Version v.
Proof.
  intros before after head v tail Hbefore Hhead Hv.
  rewrite (get_version_skips before _ Hbefore).
  cbn [Setup.get_version]. rewrite prefix_append.
  set (q := ascii_of_nat 34).
  assert (Hline : "__version__" +:+ head +:+ Setup.dquote +:+ v +:+ Setup.dquote +:+ tail
                  = ("__version__" +:+ head) +:+ String q (v +:+ String q tail)).
  { unfold Setup.dquote. fold q.
    change (String q EmptyString +:+ tail) with (String q tail).
    change (String q EmptyString +:+ (v +:+ String q tail))
      with (String q (v +:+ String q tail)).
    symmetry. apply append_assoc_eq. }
  rewrite Hline.
  assert (Hpre : PyStr.contains (String q EmptyString) ("__version__" +:+ head) = false).
  { rewrite contains_char_app. unfold Setup.dquote in Hhead. fold q in Hhead.
    rewrite Hhead. reflexivity. }
  assert (Hhas : PyStr.contains Setup.dquote
                   (("__version__" +:+ head) +:+ String q (v +:+ String q tail)) = true).
  { unfold Setup.dquote. fold q. rewrite contains_char_app, contains_char_cons.
    rewrite Ascii.eqb_refl. apply orb_true_r. }
  rewrite Hhas. unfold PyStr.split, Setup.dquote. fold q.
  rewrite (split_aux_char q _ _ Hpre).
  unfold Setup.dquote in Hv. fold q in Hv.
  rewrite (split_aux_char q v tail Hv).
  destruct (PyStr.split_aux (String q EmptyString) O tail). reflexivity.
Qed.

(** X24 on a file whose second line is the version line. *)
Lemma get_version_reads_between_double_quotes_example :
  Setup.get_version
    ["# package";
     "__version__" +:+ " = " +:+ Setup.dquote +:+ "1.2.3" +:+ Setup.dquote +:+ "  # x";
     "__version__ = '0'"]
  = Setup.Version "1.2.3".
Proof.
  exact (get_version_reads_between_double_quotes
           ["# package"] ["__version__ = '0'"] " = " "1.2.3" "  # x"
           ltac:(repeat constructor) eq_refl eq_refl).
Defined.

(** X25.  [get_version] raises [RuntimeError] exactly when no line starts
    with [__version__]. *)
Theorem get_version_runtime_error_iff :
  forall lines : list string,
    Setup.get_version lines = Setup.RaisesRuntimeError
    <-> Forall (fun l => String.prefix "__version__" l = false) lines.
Proof.
  intros lines. induction lines as [|line rest IH]; cbn [Setup.get_version].
  - split; [constructor|reflexivity].
  - destruct (String.prefix "__version__" line) eqn:Hl.
    + split.
      * destruct (nth_error _ 1); discriminate.
      * intros H. inversion H; congruence.
    + rewrite IH. split.
      * intros H. now constructor.
      * intros H. now inversion H.
Qed.

(** X26.  The first line that starts with [__version__] decides: when it
    holds no quote of either kind, [get_version] raises [IndexError], also
    when a later line gives a version. *)
Theorem get_version_unquoted_line_raises_index_error :
  forall (before after : list string) (line : string),
    Forall (fun l => String.prefix "__version__" l = false) before ->
    String.prefix "__version__" line = true ->
    PyStr.contains Setup.dquote line = false ->
    PyStr.contains "'" line = false ->
    Setup.get_version (before ++ line :: after) = Setup.RaisesIndexError.
Proof.
  intros before after line Hbefore Hline Hd Hs.
  rewrite (get_version_skips before _ Hbefore).
  cbn [Setup.get_version]. rewrite Hline, Hd.
  unfold PyStr.split. now rewrite (split_aux_no_char "'"%char line Hs).
Qed.

(** X26 on a version written as a number. *)
Lemma get_version_unquoted_line_raises_index_error_example :
  Setup.get_version ["__version__ = 3"; "__version__ = '3.0'"]
  = Setup.RaisesIndexError.
Proof.
  exact (get_version_unquoted_line_raises_index_error
           [] ["__version__ = '3.0'"] "__version__ = 3"
           (List.Forall_nil _) eq_refl eq_refl eq_refl).
Defined.
